(** * figma-variable-macros: the [%printf] renderer of [plugin-src/print.ts]

    A shallow embedding of [print.ts] and the properties of its format-string
    engine.  JavaScript values are a tagged union, numbers are IEEE-754
    doubles (Rocq's primitive floats), objects are finite maps from property
    names, thrown exceptions are an error result, and the host document
    (variables, collections, page nodes, font loading) is an explicit record
    that is read, with the writes of the loop collected in a state.

    Strings are sequences of 8-bit code units: the line terminators U+2028
    and U+2029 and the wide white-space characters of JavaScript do not arise. *)

From stdpp Require Import gmap strings list fin_maps pretty.
From Stdlib Require Import Ascii String Floats.

Local Open Scope string_scope.

(** ** Exceptions *)

(** [throw new Error(msg)] and the engine's own [TypeError] (a property read
    on [undefined] or [null]; its message is engine specific and not kept). *)
Inductive JSError : Type :=
| Error (message : string)
| TypeError.

Inductive result (A : Type) : Type :=
| Ok (value : A)
| Throw (e : JSError).
Arguments Ok {A} value.
Arguments Throw {A} e.

(** Sequencing: a thrown exception skips what follows ([x ← m; k]). *)
#[global] Instance result_ret : MRet result := fun _ x => Ok x.
#[global] Instance result_bind : MBind result := fun _ _ k m =>
  match m with
  | Ok x => k x
  | Throw e => Throw e
  end.

Definition isOk {A : Type} (m : result A) : bool :=
  match m with Ok _ => true | Throw _ => false end.

(** ** Strings *)

Module Str.

(** The double quote, as a one-character string. *)
Definition dquote : string := String "034" EmptyString.

(** [s.includes(searchString)] *)
Fixpoint includes (searchString s : string) : bool :=
  String.prefix searchString s ||
  match s with
  | EmptyString => false
  | String _ s' => includes searchString s'
  end.

Fixpoint drop (n : nat) (s : string) : string :=
  match n, s with
  | S n', String _ s' => drop n' s'
  | _, _ => s
  end.

(** [GetSubstitution] of ECMA-262 for a string pattern (no captures): in
    the replacement text [$$] is a dollar sign, [$&] the matched text,
    [$`] the text before the match and [$'] the text after it; any other
    [$] stays as it is. *)
Fixpoint getSubstitution (matched before after replacement : string) : string :=
  match replacement with
  | EmptyString => EmptyString
  | String c rest =>
      if Ascii.eqb c "$" then
        match rest with
        | String d rest' =>
            if Ascii.eqb d "$" then
              String "$" (getSubstitution matched before after rest')
            else if Ascii.eqb d "&" then
              matched ++ getSubstitution matched before after rest'
            else if Ascii.eqb d "`" then
              before ++ getSubstitution matched before after rest'
            else if Ascii.eqb d "'" then
              after ++ getSubstitution matched before after rest'
            else String c (getSubstitution matched before after rest)
        | EmptyString => String c EmptyString
        end
      else String c (getSubstitution matched before after rest)
  end.

(** The scan of [replaceAll]: [before] is the text already passed over,
    [skip] the number of code units of the current match still to pass. *)
Fixpoint replaceAllFrom (searchValue replaceValue before : string)
    (skip : nat) (s : string) {struct s} : string :=
  match s with
  | EmptyString =>
      if String.eqb searchValue EmptyString then
        getSubstitution EmptyString before EmptyString replaceValue
      else EmptyString
  | String c s' =>
      match skip with
      | S k => replaceAllFrom searchValue replaceValue (before ++ String c EmptyString) k s'
      | O =>
          if String.prefix searchValue s then
            getSubstitution searchValue before
              (drop (String.length searchValue) s) replaceValue
            ++ (if String.eqb searchValue EmptyString then
                  String c (replaceAllFrom searchValue replaceValue
                              (before ++ String c EmptyString) 0 s')
                else
                  replaceAllFrom searchValue replaceValue
                    (before ++ String c EmptyString) (String.length searchValue - 1) s')
          else
            String c (replaceAllFrom searchValue replaceValue
                        (before ++ String c EmptyString) 0 s')
      end
  end.

(** [s.replaceAll(searchValue, replaceValue)] with a string pattern. *)
Definition replaceAll (searchValue replaceValue s : string) : string :=
  replaceAllFrom searchValue replaceValue EmptyString 0 s.

(** White space and line terminators, as [trim] strips them. *)
Definition isWhiteSpace (c : ascii) : bool :=
  Ascii.eqb c "009" || Ascii.eqb c "010" || Ascii.eqb c "011" ||
  Ascii.eqb c "012" || Ascii.eqb c "013" || Ascii.eqb c " " ||
  Ascii.eqb c "160".

(** What [.] of a regular expression does not match. *)
Definition isLineTerminator (c : ascii) : bool :=
  Ascii.eqb c "010" || Ascii.eqb c "013".

Fixpoint trimStart (s : string) : string :=
  match s with
  | String c s' => if isWhiteSpace c then trimStart s' else s
  | EmptyString => EmptyString
  end.

Fixpoint trimEnd (s : string) : string :=
  match s with
  | EmptyString => EmptyString
  | String c s' =>
      let t := trimEnd s' in
      if isWhiteSpace c && String.eqb t EmptyString then EmptyString else String c t
  end.

(** [s.trim()] *)
Definition trim (s : string) : string := trimEnd (trimStart s).

End Str.

(** ** The pattern of a printf node's name

    [%printf(], a double quote, a greedy group, a double quote, a comma and a
    space, a second greedy group, [)]. *)

Module Pattern.

Import Str.

(** A greedy group followed by the rest of the pattern [k]: the longest
    run of characters other than line terminators after which [k] matches,
    found by trying the longer runs first. *)
Fixpoint dotStar {A : Type} (k : string → option A) (s : string)
    : option (string * A) :=
  match s with
  | EmptyString => pair EmptyString <$> k s
  | String c s' =>
      if Str.isLineTerminator c then pair EmptyString <$> k s
      else
        match dotStar k s' with
        | Some (group, x) => Some (String c group, x)
        | None => pair EmptyString <$> k s
        end
  end.

Definition literal {A : Type} (lit : string) (k : string → option A)
    (s : string) : option A :=
  if String.prefix lit s then k (Str.drop (String.length lit) s) else None.

(** The pattern tried at the start of [s]; the two captured groups. *)
Definition matchHere (s : string) : option (string * string) :=
  literal ("%printf(" ++ dquote) (fun s1 =>
    '(g1, g2) ← dotStar (literal (dquote ++ ", ") (fun s2 =>
         fst <$> dotStar (literal ")" (fun _ => Some tt)) s2)) s1;
    Some (g1 , g2)) s.

(** [name.match(pattern)]: the leftmost position at which it matches. *)
Fixpoint matchPrintf (name : string) : option (string * string) :=
  match matchHere name with
  | Some groups => Some groups
  | None =>
      match name with
      | EmptyString => None
      | String _ name' => matchPrintf name'
      end
  end.

End Pattern.

(** ** Values of variables *)

(** The record [getRGBA] returns. *)
Module RGBA.
Record t : Type := mk { r : float; g : float; b : float; a : float }.
End RGBA.

(** [VariableValue] of the plugin API, [boolean | string | number | RGB |
    RGBA | VariableAlias], and [undefined], which a missing mode of
    [valuesByMode] and a string destructured beyond its end produce.  A color
    is an object of numeric properties; an alias is the object
    [{ type: "VARIABLE_ALIAS", id }]. *)
Inductive VariableValue : Type :=
| VUndefined
| VBoolean (b : bool)
| VNumber (x : float)
| VString (s : string)
| VObject (properties : gmap string float)
| VAlias (id : string).

(** [typeof value] *)
Definition typeof (value : VariableValue) : string :=
  match value with
  | VUndefined => "undefined"
  | VBoolean _ => "boolean"
  | VNumber _ => "number"
  | VString _ => "string"
  | VObject _ | VAlias _ => "object"
  end.

(** [!value] is [negb (truthy value)]. *)
Definition truthy (value : VariableValue) : bool :=
  match value with
  | VUndefined => false
  | VBoolean b => b
  | VNumber x => negb (PrimFloat.eqb x 0 || PrimFloat.is_nan x)
  | VString s => negb (String.eqb s EmptyString)
  | VObject _ | VAlias _ => true
  end.

(** [key in value], for the objects. *)
Definition hasProperty (key : string) (value : VariableValue) : bool :=
  match value with
  | VObject properties => bool_decide (is_Some (properties !! key))
  | VAlias _ => String.eqb key "type" || String.eqb key "id"
  | _ => false
  end.

(** [value.key] read as a number; [undefined] in arithmetic is [NaN]. *)
Definition numberProperty (key : string) (value : VariableValue) : float :=
  match value with
  | VObject properties => default nan (properties !! key)
  | _ => nan
  end.

(** [value.type === "VARIABLE_ALIAS"] *)
Definition typeIsVariableAlias (value : VariableValue) : bool :=
  match value with
  | VAlias _ => true
  | _ => false
  end.

(** [value.id] of an alias. *)
Definition aliasId (value : VariableValue) : option string :=
  match value with
  | VAlias id => Some id
  | _ => None
  end.

Definition isVariableAlias (value : VariableValue) : bool :=
  if negb (truthy value) || negb (String.eqb (typeof value) "object")
     || negb (hasProperty "type" value)
  then false
  else typeIsVariableAlias value.

Definition getRGBA (variableValue : VariableValue) : result RGBA.t :=
  if negb (truthy variableValue) || negb (String.eqb (typeof variableValue) "object")
  then Throw (Error "Variable value is not an object")
  else if hasProperty "r" variableValue && hasProperty "g" variableValue
          && hasProperty "b" variableValue && hasProperty "a" variableValue
  then Ok {| RGBA.r := PrimFloat.mul (numberProperty "r" variableValue) 255;
             RGBA.g := PrimFloat.mul (numberProperty "g" variableValue) 255;
             RGBA.b := PrimFloat.mul (numberProperty "b" variableValue) 255;
             RGBA.a := numberProperty "a" variableValue |}
  else Throw (Error "Variable value is not an RGBA object").

(** ** The host document

    The API type [Variable] is [Variable_.t] here. *)

Module Variable_.
Record t : Type := mk {
  id : string;
  name : string;
  variableCollectionId : string;
  valuesByMode : gmap string VariableValue
}.
End Variable_.

Module VariableCollection.
Record t : Type := mk { id : string }.
End VariableCollection.

Inductive NodeType : Type := TEXT | FRAME | RECTANGLE.

Module SceneNode.
Record t : Type := mk {
  id : string;
  type : NodeType;
  name : string;
  fontName : string;
  resolvedVariableModes : gmap string string
}.
End SceneNode.

(** What the plugin reads from [figma]: the local variables in the order
    [getLocalVariablesAsync] lists them, the lookups by id ([None] is
    [null]), the nodes of the current page in the order [findAll] visits
    them, and [loadFontAsync], which the host may reject with an error. *)
Record Figma : Type := {
  getLocalVariablesAsync : list Variable_.t;
  getVariableById : string → option Variable_.t;
  getVariableCollectionById : string → option VariableCollection.t;
  currentPage : list SceneNode.t;
  loadFontAsync : string → result unit
}.

(** [variable.valuesByMode[modeId]] *)
Definition valueAt (variable : Variable_.t) (modeId : string) : VariableValue :=
  default VUndefined (Variable_.valuesByMode variable !! modeId).

(** A value that is [null] behind a non-null assertion: reading a property
    of it throws. *)
Definition nonNull {A : Type} (x : option A) : result A :=
  match x with
  | Some y => Ok y
  | None => Throw TypeError
  end.

(** [evaluateVariable] recurses along aliases with no bound of its own; the
    model counts the calls down from [fuel] and gives [None] when it runs
    out (a cyclic chain exhausts every fuel). *)
Fixpoint evaluateVariable (figma : Figma) (fuel : nat) (variable : Variable_.t)
    (modeId : string) : option (result VariableValue) :=
  match fuel with
  | O => None
  | S fuel' =>
      let value := valueAt variable modeId in
      if isVariableAlias value then
        match aliasId value ≫= getVariableById figma with
        | Some boundVariable => evaluateVariable figma fuel' boundVariable modeId
        | None => Some (Throw TypeError)
        end
      else Some (Ok value)
  end.

Definition getBoundedName (figma : Figma) (variable : Variable_.t)
    (modeId : string) : result (option string) :=
  let value := valueAt variable modeId in
  if isVariableAlias value then
    boundVariable ← nonNull (aliasId value ≫= getVariableById figma);
    Ok (Some (Variable_.name boundVariable))
  else Ok None.

(** ** The resolvers and the loop over the page *)

Definition VARIABLE_RESOLVERS : list string :=
  ["v"; "hex"; "rgba"; "bound"; "r"; "g"; "b"; "a"].

(** The callbacks of [filter] and [reduce] destructure each entry of
    [VARIABLE_RESOLVERS], a string, as an array: [key] is its first code
    unit and [value] its second, [undefined] where the string is shorter.
    [key] is only ever spliced into text and compared with the resolver
    names, where [undefined] behaves as the text "undefined". *)
Definition elementAt (i : nat) (entry : string) : VariableValue :=
  match String.get i entry with
  | Some c => VString (String c EmptyString)
  | None => VUndefined
  end.

Definition keyOf (entry : string) : string :=
  match elementAt 0 entry with
  | VString c => c
  | _ => "undefined"
  end.

Definition destructure (entry : string) : string * VariableValue :=
  (keyOf entry, elementAt 1 entry).

(** [VARIABLE_RESOLVERS.filter(([key]) => fstring.includes(`%${key}`))] *)
Definition usedResolvers (fstring : string) : list string :=
  List.filter (fun entry => Str.includes ("%" ++ keyOf entry) fstring)
    VARIABLE_RESOLVERS.

(** The [(key, value)] pairs [reduce] hands to [variableResolver]. *)
Definition resolverArguments (fstring : string) : list (string * VariableValue) :=
  destructure <$> usedResolvers fstring.

(** The writes of one run: the texts assigned to [node.characters], in
    order, the counter, and the message given to [figma.notify]. *)
Record Effects : Type := {
  characters : list (SceneNode.t * string);
  printedCount : nat;
  notified : option string
}.

Definition noEffects : Effects :=
  {| characters := []; printedCount := 0; notified := None |}.

Section Print.

(** [Number.prototype.toString] and the two functions of the color2k
    package that [print.ts] imports; [toHex] throws on a text it cannot
    parse. *)
Variable numberToString : float → string.
Variable color2k_rgba : float → float → float → float → string.
Variable color2k_toHex : string → result string.

Variable figma : Figma.

(** [variableValue.toString()] *)
Definition toString (variableValue : VariableValue) : result string :=
  match variableValue with
  | VUndefined => Throw TypeError
  | VBoolean b => Ok (if b then "true" else "false")
  | VNumber x => Ok (numberToString x)
  | VString s => Ok s
  | VObject _ | VAlias _ => Ok "[object Object]"
  end.

(** [variable] and [modeId] are the ones of the node being rendered. *)
Definition variableResolver (variable : Variable_.t) (modeId : string)
    (resolver : string) (variableValue : VariableValue) : result string :=
  if String.eqb resolver "v" then toString variableValue
  else if String.eqb resolver "bound" then
    bound ← getBoundedName figma variable modeId;
    Ok (default "N/A" bound)
  else
    RGBA ← getRGBA variableValue;
    let rgba := color2k_rgba (RGBA.r RGBA) (RGBA.g RGBA) (RGBA.b RGBA) (RGBA.a RGBA) in
    if String.eqb resolver "rgba" then Ok rgba
    else if String.eqb resolver "hex" then color2k_toHex rgba
    else if String.eqb resolver "r" then Ok (numberToString (RGBA.r RGBA))
    else if String.eqb resolver "g" then Ok (numberToString (RGBA.g RGBA))
    else if String.eqb resolver "b" then Ok (numberToString (RGBA.b RGBA))
    else if String.eqb resolver "a" then Ok (numberToString (RGBA.a RGBA))
    else Throw (Error ("Variable resolver not found:" ++ resolver)).

(** The [filter(...).reduce(...)] that computes [resultString]. *)
Definition renderTemplate (variable : Variable_.t) (modeId : string)
    (fstring : string) : result string :=
  foldl (fun acc '(key, value) =>
           acc ← acc;
           text ← variableResolver variable modeId key value;
           Ok (Str.replaceAll ("%" ++ key) text acc))
        (Ok fstring) (resolverArguments fstring).

(** [new Map(variables.map((v) => [v.name, v]))]: a later variable of the
    same name replaces an earlier one. *)
Definition variableMap : gmap string Variable_.t :=
  foldl (fun m v => <[Variable_.name v := v]> m) ∅ (getLocalVariablesAsync figma).

Definition getVariable (name : string) : result Variable_.t :=
  match variableMap !! name with
  | Some variable => Ok variable
  | None => Throw (Error ("Variable " ++ name ++ " not found"))
  end.

Definition isText (node : SceneNode.t) : bool :=
  match SceneNode.type node with TEXT => true | _ => false end.

Definition textNodesToRender : list SceneNode.t :=
  List.filter isText
    (List.filter (fun node => isText node && String.prefix "%printf" (SceneNode.name node))
       (currentPage figma)).

(** A mode id that is [undefined] indexes [valuesByMode] as the property
    named "undefined". *)
Definition propertyKey (modeId : option string) : string :=
  default "undefined" modeId.

(** The body of the loop from the match of the name to the loaded font:
    [None] is [continue]. *)
Definition resolveNode (node : SceneNode.t) : result (option string) :=
  match Pattern.matchPrintf (SceneNode.name node) with
  | None => Ok None
  | Some (group1, group2) =>
      let fstring := Str.trim group1 in
      let varName := Str.trim group2 in
      variable ← getVariable varName;
      collection ← nonNull (getVariableCollectionById figma
                              (Variable_.variableCollectionId variable));
      let modeId := SceneNode.resolvedVariableModes node
                      !! VariableCollection.id collection in
      resultString ← renderTemplate variable (propertyKey modeId) fstring;
      _ ← loadFontAsync figma (SceneNode.fontName node);
      Ok (Some resultString)
  end.

(** The [for] loop: the first exception ends it. *)
Fixpoint renderNodes (nodes : list SceneNode.t) (effects : Effects)
    : Effects * result unit :=
  match nodes with
  | [] => (effects, Ok tt)
  | node :: rest =>
      match resolveNode node with
      | Throw e => (effects, Throw e)
      | Ok None => renderNodes rest effects
      | Ok (Some resultString) =>
          renderNodes rest
            {| characters := characters effects ++ [(node, resultString)];
               printedCount := S (printedCount effects);
               notified := notified effects |}
      end
  end.

Definition printVariablesFormatted : Effects * result unit :=
  match renderNodes textNodesToRender noEffects with
  | (effects, Ok _) =>
      ({| characters := characters effects;
          printedCount := printedCount effects;
          notified := Some ("Printed " ++ pretty (printedCount effects) ++ " variables") |},
       Ok tt)
  | (effects, Throw e) => (effects, Throw e)
  end.

End Print.


(** ** Vocabulary of the specification *)

(** A color value in the words of the specification: an object that has the
    four keys [r], [g], [b] and [a]. *)
Definition isColorObject (value : VariableValue) : bool :=
  match value with
  | VObject properties =>
      bool_decide (({[ "r"; "g"; "b"; "a" ]} : gset string) ⊆ dom properties)
  | _ => false
  end.

(** The specification's error kind [NotAColor]: the two errors [getRGBA]
    throws. *)
Definition NotAColor (e : JSError) : Prop :=
  e = Error "Variable value is not an object" ∨
  e = Error "Variable value is not an RGBA object".

(** The specification's error kind [NotFound] for a variable name. *)
Definition NotFound (varName : string) : JSError :=
  Error ("Variable " ++ varName ++ " not found").

(** A component within the range [0, 1]. *)
Definition inUnitRange (x : float) : bool :=
  PrimFloat.leb 0 x && PrimFloat.leb x 1.

(** The variable name a node's name refers to, when it has the printf form. *)
Definition referencedVariable (node : SceneNode.t) : option string :=
  (fun groups => Str.trim (snd groups)) <$> Pattern.matchPrintf (SceneNode.name node).

(** A chain of [hops] aliases from [variable], each read at [modeId], that
    ends in the value [terminal], which is not an alias. *)
Inductive AliasChain (figma : Figma) (modeId : string)
  : Variable_.t → nat → VariableValue → Prop :=
| chain_end variable :
    isVariableAlias (valueAt variable modeId) = false →
    AliasChain figma modeId variable 0 (valueAt variable modeId)
| chain_hop variable id boundVariable hops terminal :
    valueAt variable modeId = VAlias id →
    getVariableById figma id = Some boundVariable →
    AliasChain figma modeId boundVariable hops terminal →
    AliasChain figma modeId variable (S hops) terminal.

(** ** Example documents *)

Module Examples.

(** The object literal [{ r, g, b, a }]. *)
Definition color (r g b a : float) : VariableValue :=
  VObject (<["r" := r]> (<["g" := g]> (<["b" := b]> (<["a" := a]> ∅)))).

Definition collection : VariableCollection.t :=
  VariableCollection.mk "VariableCollectionId:1:0".

Definition variableIn (id name : string) (value : VariableValue) : Variable_.t :=
  Variable_.mk id name (VariableCollection.id collection) (<["Light" := value]> ∅).

(** [Primary] is red in the mode [Light]. *)
Definition Primary : Variable_.t :=
  variableIn "VariableID:1:1" "Primary" (color 1 0 0 1).

(** [Button] is an alias of [Accent], which is an alias of [Primary]. *)
Definition Accent : Variable_.t :=
  variableIn "VariableID:1:2" "Accent" (VAlias "VariableID:1:1").

Definition Button : Variable_.t :=
  variableIn "VariableID:1:3" "Button" (VAlias "VariableID:1:2").

Definition variables : list Variable_.t := [Primary; Accent; Button].

(** A text node named [%printf("template", varName)], in the mode [Light]. *)
Definition printfNode (id template varName : string) : SceneNode.t :=
  SceneNode.mk id TEXT
    ("%printf(" ++ Str.dquote ++ template ++ Str.dquote ++ ", " ++ varName ++ ")")
    "Inter Regular"
    (<[VariableCollection.id collection := "Light"]> ∅).

Definition document (page : list SceneNode.t) : Figma :=
  {| getLocalVariablesAsync := variables;
     getVariableById := fun id =>
       List.find (fun v => String.eqb (Variable_.id v) id) variables;
     getVariableCollectionById := fun id =>
       if String.eqb id (VariableCollection.id collection) then Some collection
       else None;
     currentPage := page;
     loadFontAsync := fun _ => Ok tt |}.

(** The library functions are never reached by the runs below, which hold
    for whatever they return; where a closed term is needed these stand for
    them. *)
Definition numberText : float → string := fun _ => "0".
Definition rgbaText : float → float → float → float → string :=
  fun _ _ _ _ => "rgba(0, 0, 0, 0)".
Definition hexText : string → result string := fun _ => Ok "#000000".

End Examples.

(** ** Further vocabulary and example documents *)

(** [hops] alias steps, each read at [modeId], lead from the first variable
    to the second. *)
Inductive AliasHops (figma : Figma) (modeId : string)
  : Variable_.t → nat → Variable_.t → Prop :=
| hops_none variable : AliasHops figma modeId variable 0 variable
| hops_more variable id boundVariable hops target :
    valueAt variable modeId = VAlias id →
    getVariableById figma id = Some boundVariable →
    AliasHops figma modeId boundVariable hops target →
    AliasHops figma modeId variable (S hops) target.

(** A text without line terminators. *)
Fixpoint singleLine (s : string) : bool :=
  match s with
  | EmptyString => true
  | String c s' => negb (Str.isLineTerminator c) && singleLine s'
  end.

(** What stands between the two groups of the pattern: a double quote, a
    comma and a space. *)
Definition separator : string := Str.dquote ++ ", ".

(** The name [%printf("template", varName)]. *)
Definition printfName (template varName : string) : string :=
  "%printf(" ++ Str.dquote ++ template ++ separator ++ varName ++ ")".

(** The name of the node has the printf form. *)
Definition matchesPattern (node : SceneNode.t) : bool :=
  bool_decide (is_Some (Pattern.matchPrintf (SceneNode.name node))).

(** The variables of a list that have a given name. *)
Definition named (name : string) (variables : list Variable_.t) : list Variable_.t :=
  List.filter (fun v => String.eqb (Variable_.name v) name) variables.

Module Cases.

(** Two variables that are aliases of each other. *)
Definition Ping : Variable_.t :=
  Examples.variableIn "VariableID:2:1" "Ping" (VAlias "VariableID:2:2").

Definition Pong : Variable_.t :=
  Examples.variableIn "VariableID:2:2" "Pong" (VAlias "VariableID:2:1").

(** [Link] is an alias, in the mode [Light], of [Foreign], a variable of
    another collection that has a value in the mode [Dark] only. *)
Definition Foreign : Variable_.t :=
  Variable_.mk "VariableID:3:1" "Foreign" "VariableCollectionId:3:0"
    (<["Dark" := VNumber 8]> ∅).

Definition Link : Variable_.t :=
  Examples.variableIn "VariableID:2:3" "Link" (VAlias "VariableID:3:1").

(** [Orphan] is an alias of a variable that does not exist. *)
Definition Orphan : Variable_.t :=
  Examples.variableIn "VariableID:2:4" "Orphan" (VAlias "VariableID:9:9").

(** Two variables of the same name. *)
Definition Shade : Variable_.t :=
  Examples.variableIn "VariableID:2:5" "Shade" (VNumber 1).

Definition Shade' : Variable_.t :=
  Examples.variableIn "VariableID:2:6" "Shade" (VNumber 2).

Definition variables : list Variable_.t :=
  [Ping; Pong; Foreign; Link; Orphan; Shade; Shade'].

(** A document with these variables, in which only the font [Inter Regular]
    can be loaded. *)
Definition document (page : list SceneNode.t) : Figma :=
  {| getLocalVariablesAsync := variables;
     getVariableById := fun id =>
       List.find (fun v => String.eqb (Variable_.id v) id) variables;
     getVariableCollectionById := fun id =>
       if String.eqb id (VariableCollection.id Examples.collection)
       then Some Examples.collection else None;
     currentPage := page;
     loadFontAsync := fun fontName =>
       if String.eqb fontName "Inter Regular" then Ok tt
       else Throw (Error "The font could not be loaded") |}.

(** A text node with a name and a font. *)
Definition textNode (id name fontName : string) : SceneNode.t :=
  SceneNode.mk id TEXT name fontName
    (<[VariableCollection.id Examples.collection := "Light"]> ∅).

End Cases.

(** Text nodes of a page: three whose name has the printf form, one of
    them with a font that cannot be loaded, and one whose name has not. *)
Module Pages.

Definition title : SceneNode.t :=
  Cases.textNode "4:1" (printfName "Title" "Shade") "Inter Regular".

Definition subtitle : SceneNode.t :=
  Cases.textNode "4:2" (printfName "Subtitle" "Shade") "Comic Sans".

Definition note : SceneNode.t :=
  Cases.textNode "4:3" "%printf(note)" "Inter Regular".

Definition footer : SceneNode.t :=
  Cases.textNode "4:4" (printfName " Footer " " Shade ") "Inter Regular".

End Pages.

(** ** Strings and the pattern on examples *)

Example includes_ex : Str.includes "%h" "Color: %hex" = true.
Proof. reflexivity. Qed.

Example replaceAll_ex : Str.replaceAll "%r" "255" "%r, %rg%" = "255, 255g%".
Proof. reflexivity. Qed.

Example replaceAll_dollar : Str.replaceAll "b" "[$&$$$`]" "abc" = "a[b$a]c".
Proof. reflexivity. Qed.

Example trim_ex : Str.trim "  Primary " = "Primary".
Proof. reflexivity. Qed.

Example match_ex :
  Pattern.matchPrintf
    ("%printf(" ++ Str.dquote ++ "Color: %hex (%rgba)" ++ Str.dquote ++ ", Primary)")
  = Some ("Color: %hex (%rgba)", "Primary").
Proof. reflexivity. Qed.

Example match_greedy :
  Pattern.matchPrintf
    ("x%printf(" ++ Str.dquote ++ "a" ++ Str.dquote ++ ", b" ++ Str.dquote ++ ", c) d)")
  = Some ("a" ++ Str.dquote ++ ", b", "c) d").
Proof. reflexivity. Qed.

(** ** Color normalisation: [getRGBA] *)

Lemma hasProperty_lookup (properties : gmap string float) key x :
  properties !! key = Some x → hasProperty key (VObject properties) = true.
Proof. intros H. unfold hasProperty. rewrite H. by apply bool_decide_eq_true_2. Qed.

Lemma numberProperty_lookup (properties : gmap string float) key x :
  properties !! key = Some x → numberProperty key (VObject properties) = x.
Proof. intros H. unfold numberProperty. by rewrite H. Qed.

(** An object with the four keys is converted, whatever its components. *)
Lemma getRGBA_object (properties : gmap string float) r g b a :
  properties !! "r" = Some r → properties !! "g" = Some g →
  properties !! "b" = Some b → properties !! "a" = Some a →
  getRGBA (VObject properties)
  = Ok {| RGBA.r := PrimFloat.mul r 255; RGBA.g := PrimFloat.mul g 255;
          RGBA.b := PrimFloat.mul b 255; RGBA.a := a |}.
Proof.
  intros Hr Hg Hb Ha. unfold getRGBA. cbn [truthy typeof negb orb String.eqb].
  rewrite (hasProperty_lookup _ _ _ Hr), (hasProperty_lookup _ _ _ Hg),
    (hasProperty_lookup _ _ _ Hb), (hasProperty_lookup _ _ _ Ha).
  rewrite (numberProperty_lookup _ _ _ Hr), (numberProperty_lookup _ _ _ Hg),
    (numberProperty_lookup _ _ _ Hb), (numberProperty_lookup _ _ _ Ha).
  reflexivity.
Qed.

Lemma isColorObject_lookups (properties : gmap string float) :
  isColorObject (VObject properties)
  = hasProperty "r" (VObject properties) && hasProperty "g" (VObject properties)
    && hasProperty "b" (VObject properties) && hasProperty "a" (VObject properties).
Proof.
  unfold isColorObject, hasProperty.
  apply eq_true_iff_eq.
  rewrite !andb_true_iff, !bool_decide_eq_true, <- !elem_of_dom.
  rewrite !union_subseteq, !singleton_subseteq_l. tauto.
Qed.

(** C6. For a color value whose components [r], [g], [b], [a] lie in
    [0, 1], [getRGBA] returns the record whose [r], [g], [b] are the inputs
    multiplied by 255 as floating-point numbers, with no rounding to an
    integer, and whose [a] is the input alpha unchanged. *)
Theorem C6_getRGBA_scales_by_255 (properties : gmap string float) (r g b a : float) :
  properties !! "r" = Some r → properties !! "g" = Some g →
  properties !! "b" = Some b → properties !! "a" = Some a →
  inUnitRange r = true → inUnitRange g = true →
  inUnitRange b = true → inUnitRange a = true →
  getRGBA (VObject properties)
  = Ok {| RGBA.r := PrimFloat.mul r 255; RGBA.g := PrimFloat.mul g 255;
          RGBA.b := PrimFloat.mul b 255; RGBA.a := a |}.
Proof. intros Hr Hg Hb Ha _ _ _ _. by apply getRGBA_object. Qed.

(** The color [{r:1, g:0, b:0.5, a:1}] becomes [{r:255, g:0, b:127.5, a:1}]. *)
Lemma C6_getRGBA_scales_by_255_witness :
  getRGBA (Examples.color 1 0 0.5 1)
  = Ok {| RGBA.r := 255; RGBA.g := 0; RGBA.b := 127.5; RGBA.a := 1 |}.
Proof.
  exact (C6_getRGBA_scales_by_255
           (<["r" := 1%float]> (<["g" := 0%float]> (<["b" := 0.5%float]> (<["a" := 1%float]> ∅))))
           1 0 0.5 1
           eq_refl eq_refl eq_refl eq_refl eq_refl eq_refl eq_refl eq_refl).
Defined.

Lemma getRGBA_not_object (value : VariableValue) :
  String.eqb (typeof value) "object" = false →
  getRGBA value = Throw (Error "Variable value is not an object").
Proof. intros H. unfold getRGBA. by rewrite H, orb_true_r. Qed.

(** C8. [getRGBA] throws one of its two errors, the specification's
    [NotAColor], exactly when the value is not an object that has the four
    keys [r], [g], [b], [a]; on every object that has them it succeeds, and
    the record it returns is the scaled one. *)
Theorem C8_getRGBA_fails_exactly_on_non_colors (value : VariableValue) :
  isOk (getRGBA value) = isColorObject value
  ∧ (∀ e, getRGBA value = Throw e → NotAColor e ∧ isColorObject value = false)
  ∧ (∀ rgba, getRGBA value = Ok rgba →
       isColorObject value = true
       ∧ rgba = {| RGBA.r := PrimFloat.mul (numberProperty "r" value) 255;
                   RGBA.g := PrimFloat.mul (numberProperty "g" value) 255;
                   RGBA.b := PrimFloat.mul (numberProperty "b" value) 255;
                   RGBA.a := numberProperty "a" value |}).
Proof.
  destruct value as [ | flag | x | s | properties | id ].
  1-4: rewrite getRGBA_not_object by reflexivity;
       (split; [reflexivity |]); split;
       [ intros e [= <-]; split; [by left | reflexivity] | intros rgba; discriminate ].
  - unfold getRGBA. cbn [truthy typeof negb orb String.eqb].
    rewrite isColorObject_lookups.
    destruct (hasProperty "r" (VObject properties) && hasProperty "g" (VObject properties)
              && hasProperty "b" (VObject properties) && hasProperty "a" (VObject properties)).
    + split; [reflexivity |]. split; [intros e; discriminate |].
      intros rgba [= <-]. by split.
    + split; [reflexivity |]. split; [| intros rgba; discriminate].
      intros e [= <-]. split; [by right | reflexivity].
  - split; [reflexivity |]. split; [| intros rgba; discriminate].
    intros e [= <-]. split; [by right | reflexivity].
Qed.

(** C10. [getRGBA] checks no range: every object that has the keys [r],
    [g], [b], [a] is converted to [{255 r, 255 g, 255 b, a}] without an
    error, whatever its components, so that channels outside [0, 255] and
    an alpha outside [0, 1] are returned. *)
Theorem C10_getRGBA_validates_no_range :
  (∀ (properties : gmap string float) (r g b a : float),
     properties !! "r" = Some r → properties !! "g" = Some g →
     properties !! "b" = Some b → properties !! "a" = Some a →
     getRGBA (VObject properties)
     = Ok {| RGBA.r := PrimFloat.mul r 255; RGBA.g := PrimFloat.mul g 255;
             RGBA.b := PrimFloat.mul b 255; RGBA.a := a |})
  ∧ (∃ (properties : gmap string float) (rgba : RGBA.t),
       getRGBA (VObject properties) = Ok rgba
       ∧ PrimFloat.ltb 255 (RGBA.r rgba) = true
       ∧ PrimFloat.ltb (RGBA.g rgba) 0 = true
       ∧ PrimFloat.ltb 1 (RGBA.a rgba) = true).
Proof.
  split.
  - apply getRGBA_object.
  - exists (<["r" := 2%float]> (<["g" := (-1)%float]> (<["b" := 0%float]> (<["a" := 1.5%float]> ∅)))).
    eexists. split; [reflexivity |]. by vm_compute.
Qed.

(** The components [{r:2, g:-1, b:0, a:1.5}] come back as
    [{r:510, g:-255, b:0, a:1.5}]. *)
Lemma C10_getRGBA_validates_no_range_witness :
  getRGBA (Examples.color 2 (-1) 0 1.5)
  = Ok {| RGBA.r := 510; RGBA.g := (-255); RGBA.b := 0; RGBA.a := 1.5 |}.
Proof.
  exact (proj1 C10_getRGBA_validates_no_range
           (<["r" := 2%float]> (<["g" := (-1)%float]> (<["b" := 0%float]> (<["a" := 1.5%float]> ∅))))
           2 (-1) 0 1.5 eq_refl eq_refl eq_refl eq_refl)%float.
Defined.

(** ** Aliases: [isVariableAlias], [evaluateVariable], [getBoundedName] *)

Lemma isVariableAlias_true (value : VariableValue) :
  isVariableAlias value = true ↔ ∃ id, value = VAlias id.
Proof.
  split.
  - destruct value as [ | flag | x | s | properties | id ]; unfold isVariableAlias;
      cbn [truthy typeof typeIsVariableAlias negb orb String.eqb].
    + discriminate.
    + rewrite orb_true_r. discriminate.
    + rewrite orb_true_r. discriminate.
    + rewrite orb_true_r. discriminate.
    + destruct (negb (hasProperty "type" (VObject properties))); discriminate.
    + eauto.
  - by intros [id ->].
Qed.

Lemma isVariableAlias_alias (id : string) : isVariableAlias (VAlias id) = true.
Proof. reflexivity. Qed.

Lemma evaluateVariable_terminal figma fuel variable modeId :
  isVariableAlias (valueAt variable modeId) = false →
  evaluateVariable figma (S fuel) variable modeId = Some (Ok (valueAt variable modeId)).
Proof. intros H. cbn [evaluateVariable]. by rewrite H. Qed.

Lemma evaluateVariable_alias figma fuel variable modeId id boundVariable :
  valueAt variable modeId = VAlias id →
  getVariableById figma id = Some boundVariable →
  evaluateVariable figma (S fuel) variable modeId
  = evaluateVariable figma fuel boundVariable modeId.
Proof. intros Hv Hb. cbn [evaluateVariable]. rewrite Hv. cbn. by rewrite Hb. Qed.

Lemma evaluateVariable_dangling figma fuel variable modeId id :
  valueAt variable modeId = VAlias id →
  getVariableById figma id = None →
  evaluateVariable figma (S fuel) variable modeId = Some (Throw TypeError).
Proof. intros Hv Hb. cbn [evaluateVariable]. rewrite Hv. cbn. by rewrite Hb. Qed.

(** A chain of any length is followed to its end, given fuel for its hops. *)
Lemma evaluateVariable_chain figma modeId variable hops terminal :
  AliasChain figma modeId variable hops terminal →
  ∀ fuel, hops < fuel →
    evaluateVariable figma fuel variable modeId = Some (Ok terminal).
Proof.
  induction 1 as [variable Hend | variable id boundVariable hops terminal Hv Hb _ IH];
    intros [ | fuel] Hfuel; try lia.
  - by apply evaluateVariable_terminal.
  - rewrite (evaluateVariable_alias _ _ _ _ _ _ Hv Hb). apply IH. lia.
Qed.

(** More fuel does not change a result. *)
Lemma evaluateVariable_fuel_mono figma modeId fuel :
  ∀ variable outcome,
    evaluateVariable figma fuel variable modeId = Some outcome →
    evaluateVariable figma (S fuel) variable modeId = Some outcome.
Proof.
  induction fuel as [ | fuel IH]; intros variable outcome; [discriminate |].
  intros H. cbn [evaluateVariable] in *.
  destruct (isVariableAlias (valueAt variable modeId)); [| done].
  destruct (aliasId (valueAt variable modeId) ≫= getVariableById figma); [| done].
  by apply IH.
Qed.

(** C4. [evaluateVariable] returns the value stored at the mode when it is
    not an alias; when it is an alias it looks the aliased variable up by id
    and evaluates it at the same mode.  Hence, when [A] is an alias of [B]
    at mode [M] and [B] holds the terminal value [C] at [M], evaluating [A]
    at [M] gives [C]. *)
Theorem C4_evaluateVariable_follows_alias :
  (∀ figma fuel variable modeId,
     isVariableAlias (valueAt variable modeId) = false →
     evaluateVariable figma (S fuel) variable modeId
     = Some (Ok (valueAt variable modeId)))
  ∧ (∀ figma fuel variable modeId id boundVariable,
       valueAt variable modeId = VAlias id →
       getVariableById figma id = Some boundVariable →
       evaluateVariable figma (S fuel) variable modeId
       = evaluateVariable figma fuel boundVariable modeId)
  ∧ (∀ figma fuel (A B : Variable_.t) (M idB : string) (C : VariableValue),
       valueAt A M = VAlias idB →
       getVariableById figma idB = Some B →
       valueAt B M = C →
       isVariableAlias C = false →
       evaluateVariable figma (S (S fuel)) A M = Some (Ok C)).
Proof.
  split; [exact evaluateVariable_terminal |].
  split; [exact evaluateVariable_alias |].
  intros figma fuel A B M idB C HA Hid HB HC. subst C.
  rewrite (evaluateVariable_alias figma (S fuel) A M idB B HA Hid).
  by apply evaluateVariable_terminal.
Qed.

(** [Accent] is an alias of [Primary], which holds a color: [Accent]
    evaluates to that color. *)
Lemma C4_evaluateVariable_follows_alias_witness :
  evaluateVariable (Examples.document []) 2 Examples.Accent "Light"
  = Some (Ok (Examples.color 1 0 0 1)).
Proof.
  exact (proj2 (proj2 C4_evaluateVariable_follows_alias)
           (Examples.document []) 0 Examples.Accent Examples.Primary
           "Light" "VariableID:1:1" (Examples.color 1 0 0 1)
           eq_refl eq_refl eq_refl eq_refl).
Defined.

Example evaluate_two_hops :
  evaluateVariable (Examples.document []) 3 Examples.Button "Light"
  = Some (Ok (Examples.color 1 0 0 1)).
Proof. reflexivity. Qed.

Example evaluate_out_of_fuel :
  evaluateVariable (Examples.document []) 2 Examples.Button "Light" = None.
Proof. reflexivity. Qed.

(** ** The token resolver and the template *)

Lemma isVariableAlias_typeIs (value : VariableValue) :
  isVariableAlias value = typeIsVariableAlias value.
Proof.
  destruct (isVariableAlias value) eqn:H.
  - apply isVariableAlias_true in H as [id ->]. reflexivity.
  - destruct value; try reflexivity. discriminate.
Qed.

Lemma VARIABLE_RESOLVERS_nonempty :
  Forall (fun entry => entry ≠ EmptyString) VARIABLE_RESOLVERS.
Proof. repeat constructor; discriminate. Qed.

Lemma usedResolvers_elem (fstring entry : string) :
  entry ∈ usedResolvers fstring → entry ∈ VARIABLE_RESOLVERS.
Proof.
  rewrite !list_elem_of_In. unfold usedResolvers. rewrite List.filter_In. tauto.
Qed.

(** The second code unit of a resolver name, or [undefined]: all that the
    destructuring can produce as [value]. *)
Lemma resolverArguments_values (fstring key : string) (value : VariableValue) :
  (key, value) ∈ resolverArguments fstring →
  value ∈ [VUndefined; VString "e"; VString "g"; VString "o"].
Proof.
  unfold resolverArguments. rewrite list_elem_of_fmap.
  intros (entry & [= -> ->] & Hentry%usedResolvers_elem).
  unfold VARIABLE_RESOLVERS in Hentry.
  repeat (apply elem_of_cons in Hentry as [-> | Hentry]; [cbn; set_solver |]).
  by apply elem_of_nil in Hentry.
Qed.

Section Resolver.

Variable numberToString : float → string.
Variable color2k_rgba : float → float → float → float → string.
Variable color2k_toHex : string → result string.

(** The functions of [print.ts] with these library functions. *)
Local Abbreviation resolver :=
  (variableResolver numberToString color2k_rgba color2k_toHex).
Local Abbreviation template :=
  (renderTemplate numberToString color2k_rgba color2k_toHex).
Local Abbreviation resolved :=
  (resolveNode numberToString color2k_rgba color2k_toHex).
Local Abbreviation loop :=
  (renderNodes numberToString color2k_rgba color2k_toHex).
Local Abbreviation print :=
  (printVariablesFormatted numberToString color2k_rgba color2k_toHex).

(** C5. The [bound] resolver gives the name of the variable that the value
    at the mode is an alias of, found by one lookup of the alias's id and
    not by evaluating the chain, and the text [N/A] when the value at the
    mode is not an alias. *)
Theorem C5_bound_is_the_aliased_name
    (figma : Figma) (variable : Variable_.t) (modeId : string)
    (variableValue : VariableValue) :
  resolver figma variable modeId "bound" variableValue
  = match valueAt variable modeId with
    | VAlias id =>
        match getVariableById figma id with
        | Some boundVariable => Ok (Variable_.name boundVariable)
        | None => Throw TypeError
        end
    | _ => Ok "N/A"
    end.
Proof.
  unfold variableResolver, getBoundedName. cbn [String.eqb Ascii.eqb Bool.eqb].
  rewrite isVariableAlias_typeIs.
  destruct (valueAt variable modeId) as [ | flag | x | s | properties | id ]; try reflexivity.
  cbn. by destruct (getVariableById figma id).
Qed.

(** [Button] is an alias of [Accent], itself an alias of [Primary]: the
    bound name of [Button] is that of [Accent]. *)
Example bound_one_hop (variableValue : VariableValue) :
  resolver (Examples.document []) Examples.Button "Light" "bound" variableValue
  = Ok "Accent".
Proof. reflexivity. Qed.

(** Every call that [reduce] makes to the resolver throws: the value it is
    given is [undefined] or a one-letter string. *)
Lemma resolver_call_throws (figma : Figma) (variable : Variable_.t) (modeId : string) :
  Forall (fun entry =>
            ∃ e, resolver figma variable modeId (keyOf entry) (elementAt 1 entry)
                 = Throw e)
         VARIABLE_RESOLVERS.
Proof. repeat constructor; eexists; reflexivity. Qed.

Lemma foldl_throw {A : Type} (f : result string → A → result string) (e : JSError)
    (l : list A) :
  (∀ x, f (Throw e) x = Throw e) → foldl f (Throw e) l = Throw e.
Proof. intros Hf. induction l as [ | x l IH]; cbn; [done | by rewrite Hf]. Qed.

(** The template comes back as it is when no entry passes the filter, and
    the first entry that passes makes the whole reduction throw. *)
Lemma renderTemplate_cases (figma : Figma) (variable : Variable_.t)
    (modeId fstring : string) :
  match usedResolvers fstring with
  | [] => template figma variable modeId fstring = Ok fstring
  | entry :: _ =>
      template figma variable modeId fstring
      = (resolver figma variable modeId (keyOf entry) (elementAt 1 entry)
           ≫= fun _ => Throw TypeError)
  end.
Proof.
  unfold renderTemplate, resolverArguments.
  destruct (usedResolvers fstring) as [ | entry rest] eqn:Hused; [reflexivity |].
  assert (entry ∈ VARIABLE_RESOLVERS) as Hentry.
  { apply (usedResolvers_elem fstring). rewrite Hused. left. }
  pose proof (resolver_call_throws figma variable modeId) as Hthrow.
  rewrite Forall_forall in Hthrow. destruct (Hthrow _ Hentry) as [e He].
  cbn. rewrite He. cbn. apply foldl_throw. by intros [key value].
Qed.

Lemma renderTemplate_unused (figma : Figma) (variable : Variable_.t)
    (modeId fstring : string) :
  usedResolvers fstring = [] → template figma variable modeId fstring = Ok fstring.
Proof.
  intros H. pose proof (renderTemplate_cases figma variable modeId fstring) as Hc.
  by rewrite H in Hc.
Qed.

(** A render that succeeds has substituted nothing. *)
Lemma renderTemplate_ok_unchanged (figma : Figma) (variable : Variable_.t)
    (modeId fstring out : string) :
  template figma variable modeId fstring = Ok out →
  out = fstring ∧ usedResolvers fstring = [].
Proof.
  intros H. pose proof (renderTemplate_cases figma variable modeId fstring) as Hc.
  destruct (usedResolvers fstring) as [ | entry rest] eqn:Hused.
  - rewrite Hc in H. by injection H as <-.
  - assert (entry ∈ VARIABLE_RESOLVERS) as Hentry.
    { apply (usedResolvers_elem fstring). rewrite Hused. left. }
    pose proof (resolver_call_throws figma variable modeId) as Hthrow.
    rewrite Forall_forall in Hthrow. destruct (Hthrow _ Hentry) as [e He].
    rewrite Hc, He in H. discriminate.
Qed.

(** ** The loop over the nodes *)

Lemma loop_app (figma : Figma) (pre rest : list SceneNode.t) :
  ∀ effects,
    loop figma (pre ++ rest)%list effects
    = match loop figma pre effects with
      | (effects', Ok _) => loop figma rest effects'
      | (effects', Throw e) => (effects', Throw e)
      end.
Proof.
  induction pre as [ | node pre IH]; intros effects; [reflexivity |].
  cbn [app renderNodes].
  destruct (resolved figma node) as [[resultString | ] | e]; [apply IH | apply IH | reflexivity].
Qed.

(** What a run of the loop adds to the effects: texts of nodes of the list,
    in their order, each counted once, and no notification. *)
Lemma loop_effects (figma : Figma) (nodes : list SceneNode.t) :
  ∀ effects,
    ∃ written,
      characters (loop figma nodes effects).1 = (characters effects ++ written)%list
      ∧ written.*1 `sublist_of` nodes
      ∧ printedCount (loop figma nodes effects).1
        = printedCount effects + List.length written
      ∧ notified (loop figma nodes effects).1 = notified effects.
Proof.
  induction nodes as [ | node nodes IH]; intros effects; cbn [renderNodes].
  - exists []. rewrite app_nil_r. cbn. repeat split; [constructor | lia].
  - destruct (resolved figma node) as [[resultString | ] | e].
    + destruct (IH {| characters := characters effects ++ [(node, resultString)];
                      printedCount := S (printedCount effects);
                      notified := notified effects |})
        as (written & Hchars & Hsub & Hcount & Hnote).
      exists ((node, resultString) :: written). cbn in *.
      rewrite Hchars, Hcount, Hnote, <- app_assoc. cbn.
      repeat split; [by constructor | lia].
    + destruct (IH effects) as (written & Hchars & Hsub & Hcount & Hnote).
      exists written. repeat split; try done. by constructor.
    + exists []. rewrite app_nil_r. cbn. repeat split; [apply sublist_nil_l | lia].
Qed.

Lemma resolved_missing (figma : Figma) (node : SceneNode.t) (varName : string) :
  referencedVariable node = Some varName →
  variableMap figma !! varName = None →
  getVariable figma varName = Throw (NotFound varName)
  ∧ resolved figma node = Throw (NotFound varName).
Proof.
  unfold referencedVariable, resolveNode, getVariable. intros Href Hmap.
  destruct (Pattern.matchPrintf (SceneNode.name node)) as [[group1 group2] | ];
    [| discriminate].
  change (Some (Str.trim group2) = Some varName) in Href.
  injection Href as <-. cbn zeta. by rewrite Hmap.
Qed.

(** C9. When a printf node of the batch names a variable that the
    directory does not have, looking that name up throws the not-found
    error and the run ends in an exception: no node at or after that one is
    rendered (what was written belongs to the nodes before it, and is what
    the loop over those alone writes), and no notification is shown.  The
    exception is the not-found error whenever the nodes before it raise
    none. *)
Theorem C9_missing_variable_aborts_batch
    (figma : Figma) (pre post : list SceneNode.t) (node : SceneNode.t)
    (varName : string) :
  textNodesToRender figma = (pre ++ node :: post)%list →
  referencedVariable node = Some varName →
  variableMap figma !! varName = None →
  getVariable figma varName = Throw (NotFound varName)
  ∧ ∃ effects e,
      print figma = (effects, Throw e)
      ∧ effects = (loop figma pre noEffects).1
      ∧ (characters effects).*1 `sublist_of` pre
      ∧ printedCount effects = List.length (characters effects)
      ∧ notified effects = None
      ∧ (isOk (loop figma pre noEffects).2 = true → e = NotFound varName).
Proof.
  intros Hnodes Href Hmap.
  destruct (resolved_missing figma node varName Href Hmap) as [Hget Hnode].
  split; [exact Hget |].
  destruct (loop_effects figma pre noEffects) as (written & Hchars & Hsub & Hcount & Hnote).
  assert (∃ e, loop figma (pre ++ node :: post)%list noEffects
               = ((loop figma pre noEffects).1, Throw e)
               ∧ (isOk (loop figma pre noEffects).2 = true → e = NotFound varName))
    as (e & Hloop & He).
  { rewrite loop_app. destruct (loop figma pre noEffects) as [effects' [[] | e']].
    - exists (NotFound varName). cbn [renderNodes]. by rewrite Hnode.
    - exists e'. split; [reflexivity | discriminate]. }
  exists (loop figma pre noEffects).1, e.
  unfold printVariablesFormatted. rewrite Hnodes, Hloop.
  cbn in Hchars, Hcount. rewrite Hchars, Hcount, Hnote.
  repeat split; done.
Qed.

(** ** Runs of the plugin on the example documents *)

(** C1. Claimed: the value handed to the token resolver is the variable
    evaluated at the node's mode.  The code never calls [evaluateVariable]:
    what [reduce] hands over is the second letter of the resolver's own
    name, or [undefined].  For the node [%printf("%v", Primary)] the
    variable evaluates to its color, the resolver gets [undefined], and the
    run ends in a [TypeError] with nothing rendered. *)
Theorem C1_resolver_value_is_not_the_evaluated_variable :
  (∀ fstring key value,
     (key, value) ∈ resolverArguments fstring →
     value ∈ [VUndefined; VString "e"; VString "g"; VString "o"])
  ∧ resolverArguments "%v" = [("v", VUndefined)]
  ∧ evaluateVariable (Examples.document []) 1 Examples.Primary "Light"
    = Some (Ok (Examples.color 1 0 0 1))
  ∧ print (Examples.document [Examples.printfNode "1:2" "%v" "Primary"])
    = (noEffects, Throw TypeError).
Proof.
  split; [apply resolverArguments_values |].
  repeat split; by vm_compute.
Qed.

(** C2. Claimed: every occurrence of each token present in the template is
    replaced by the resolver's text.  The code substitutes nothing: a
    template in which a token occurs makes the resolver throw ([%hex], and
    the template with all eight tokens), and a render that succeeds returns
    the template as it was given. *)
Theorem C2_tokens_are_not_substituted :
  template (Examples.document []) Examples.Primary "Light" "%hex"
  = Throw (Error "Variable value is not an object")
  ∧ template (Examples.document []) Examples.Primary "Light"
      "%v %hex %rgba %bound %r %g %b %a"
    = Throw TypeError
  ∧ (∀ figma variable modeId fstring out,
       template figma variable modeId fstring = Ok out → out = fstring).
Proof.
  repeat split; try by vm_compute.
  intros figma variable modeId fstring out H.
  by apply renderTemplate_ok_unchanged in H as [-> _].
Qed.

(** C3. Claimed: the node [%printf("Color: %hex (%rgba)", Primary)], with
    [Primary] red in the mode [Light], is rendered as
    [Color: #ff0000 (rgba(255, 0, 0, 1))].  The name is parsed and the
    variable found, but the run throws and writes nothing. *)
Theorem C3_end_to_end_throws :
  let node := Examples.printfNode "1:2" "Color: %hex (%rgba)" "Primary" in
  Pattern.matchPrintf (SceneNode.name node) = Some ("Color: %hex (%rgba)", "Primary")
  ∧ getVariable (Examples.document [node]) "Primary" = Ok Examples.Primary
  ∧ getRGBA (valueAt Examples.Primary "Light")
    = Ok {| RGBA.r := 255; RGBA.g := 0; RGBA.b := 0; RGBA.a := 1 |}
  ∧ resolverArguments "Color: %hex (%rgba)"
    = [("h", VString "e"); ("r", VString "g"); ("r", VUndefined)]
  ∧ print (Examples.document [node])
    = (noEffects, Throw (Error "Variable value is not an object")).
Proof. repeat split; by vm_compute. Qed.

(** C7. Claimed: a percent sign that does not begin one of the eight token
    markers passes through unchanged.  None of the eight markers occurs in
    the template [%hello], yet rendering it throws, because the filter
    looks for the first letter of each token only; [%unknown] and a bare
    percent sign do pass through. *)
Theorem C7_percent_before_other_text_throws :
  Forall (fun token => Str.includes ("%" ++ token) "%hello" = false) VARIABLE_RESOLVERS
  ∧ template (Examples.document []) Examples.Primary "Light" "%hello"
    = Throw (Error "Variable value is not an object")
  ∧ template (Examples.document []) Examples.Primary "Light" "%unknown"
    = Ok "%unknown"
  ∧ template (Examples.document []) Examples.Primary "Light" "100 %"
    = Ok "100 %".
Proof. split; [by repeat constructor |]. repeat split; by vm_compute. Qed.

End Resolver.

(** Three printf nodes, the second of which names a variable that does not
    exist: the first is rendered, the run stops at the second. *)
Lemma C9_missing_variable_aborts_batch_witness :
  let first := Examples.printfNode "1:1" "Title" "Primary" in
  let second := Examples.printfNode "1:2" "Title" "Secondary" in
  let third := Examples.printfNode "1:3" "Title" "Accent" in
  printVariablesFormatted Examples.numberText Examples.rgbaText Examples.hexText
    (Examples.document [first; second; third])
  = ({| characters := [(first, "Title")]; printedCount := 1; notified := None |},
     Throw (NotFound "Secondary")).
Proof.
  intros first second third.
  destruct (C9_missing_variable_aborts_batch
              Examples.numberText Examples.rgbaText Examples.hexText
              (Examples.document [first; second; third])
              [first] [third] second "Secondary" eq_refl eq_refl eq_refl)
    as (_ & effects & e & Hprint & -> & _ & _ & _ & He).
  rewrite Hprint, (He eq_refl). reflexivity.
Defined.

(** ** Further properties of the aliases *)

Lemma AliasChain_terminal figma modeId variable hops terminal :
  AliasChain figma modeId variable hops terminal → isVariableAlias terminal = false.
Proof. induction 1; done. Qed.

Lemma evaluateVariable_step figma fuel variable modeId :
  evaluateVariable figma (S fuel) variable modeId
  = match valueAt variable modeId with
    | VAlias id =>
        match getVariableById figma id with
        | Some boundVariable => evaluateVariable figma fuel boundVariable modeId
        | None => Some (Throw TypeError)
        end
    | value => Some (Ok value)
    end.
Proof.
  cbn [evaluateVariable]. rewrite isVariableAlias_typeIs.
  by destruct (valueAt variable modeId).
Qed.

Lemma evaluateVariable_chain_inv figma fuel modeId terminal :
  ∀ variable,
    evaluateVariable figma fuel variable modeId = Some (Ok terminal) →
    ∃ hops, hops < fuel ∧ AliasChain figma modeId variable hops terminal.
Proof.
  induction fuel as [ | fuel IH]; intros variable; [discriminate |].
  rewrite evaluateVariable_step.
  destruct (valueAt variable modeId) as [ | flag | x | s | properties | id ] eqn:Hvalue.
  1-5: intros [= <-]; exists 0; (split; [lia |]);
       rewrite <- Hvalue; apply chain_end; by rewrite isVariableAlias_typeIs, Hvalue.
  destruct (getVariableById figma id) as [boundVariable | ] eqn:Hid; [| discriminate].
  intros (hops & Hlt & Hchain)%IH.
  exists (S hops). split; [lia |]. by eapply chain_hop.
Qed.

(** X1. [isVariableAlias] holds of the alias objects and of nothing else:
    [undefined], booleans, numbers, strings and color objects are all
    refused. *)
Theorem X1_isVariableAlias_exactly_aliases (value : VariableValue) :
  isVariableAlias value = true ↔ ∃ id, value = VAlias id.
Proof. apply isVariableAlias_true. Qed.

(** X2. [evaluateVariable] returns a value exactly when a chain of aliases,
    each read at the same mode, leads from the variable to that value and
    the value is not an alias; the calls it makes are one more than the
    hops of the chain. *)
Theorem X2_evaluateVariable_iff_chain figma fuel variable modeId terminal :
  evaluateVariable figma fuel variable modeId = Some (Ok terminal)
  ↔ ∃ hops, hops < fuel ∧ AliasChain figma modeId variable hops terminal.
Proof.
  split; [apply evaluateVariable_chain_inv |].
  intros (hops & Hlt & Hchain). by eapply evaluateVariable_chain.
Qed.

(** X3. A value that [evaluateVariable] returns is never an alias. *)
Theorem X3_evaluateVariable_never_returns_alias figma fuel variable modeId terminal :
  evaluateVariable figma fuel variable modeId = Some (Ok terminal) →
  isVariableAlias terminal = false.
Proof.
  intros (hops & _ & Hchain)%evaluateVariable_chain_inv.
  by eapply AliasChain_terminal.
Qed.

(** [Button], two aliases away from a color, evaluates to that color, which
    is not an alias. *)
Lemma X3_evaluateVariable_never_returns_alias_witness :
  isVariableAlias (Examples.color 1 0 0 1) = false.
Proof.
  exact (X3_evaluateVariable_never_returns_alias
           (Examples.document []) 3 Examples.Button "Light"
           (Examples.color 1 0 0 1) eq_refl).
Defined.

(** A variable from which every alias leads to another alias is never
    evaluated: the recursion does not end. *)
Lemma evaluateVariable_endless figma modeId (P : Variable_.t → Prop) :
  (∀ variable, P variable →
     ∃ id boundVariable,
       valueAt variable modeId = VAlias id
       ∧ getVariableById figma id = Some boundVariable
       ∧ P boundVariable) →
  ∀ fuel variable, P variable → evaluateVariable figma fuel variable modeId = None.
Proof.
  intros Hclosed. induction fuel as [ | fuel IH]; intros variable HP; [reflexivity |].
  destruct (Hclosed variable HP) as (id & boundVariable & Hvalue & Hid & HP').
  rewrite evaluateVariable_step, Hvalue, Hid. by apply IH.
Qed.

(** X4. [evaluateVariable] has no guard against cycles: from a variable of
    a set in which every variable is an alias of another one of the set,
    the recursion never returns, whatever the number of calls allowed. *)
Theorem X4_evaluateVariable_cycle_never_returns
    figma modeId (P : Variable_.t → Prop) (fuel : nat) (variable : Variable_.t) :
  (∀ v, P v →
     ∃ id boundVariable,
       valueAt v modeId = VAlias id
       ∧ getVariableById figma id = Some boundVariable
       ∧ P boundVariable) →
  P variable →
  evaluateVariable figma fuel variable modeId = None.
Proof. intros Hclosed HP. by eapply evaluateVariable_endless. Qed.

(** [Ping] and [Pong] are aliases of each other. *)
Lemma X4_evaluateVariable_cycle_never_returns_witness :
  evaluateVariable (Cases.document []) 1000 Cases.Ping "Light" = None.
Proof.
  apply (X4_evaluateVariable_cycle_never_returns (Cases.document []) "Light"
           (fun v => v = Cases.Ping ∨ v = Cases.Pong)).
  - intros v [-> | ->].
    + exists "VariableID:2:2", Cases.Pong.
      split; [reflexivity |]. split; [reflexivity | by right].
    + exists "VariableID:2:1", Cases.Ping.
      split; [reflexivity |]. split; [reflexivity | by left].
  - by left.
Defined.

Lemma evaluateVariable_throw_inv figma fuel modeId e :
  ∀ variable,
    evaluateVariable figma fuel variable modeId = Some (Throw e) →
    e = TypeError
    ∧ ∃ hops target id,
        hops < fuel ∧ AliasHops figma modeId variable hops target
        ∧ valueAt target modeId = VAlias id
        ∧ getVariableById figma id = None.
Proof.
  induction fuel as [ | fuel IH]; intros variable; [discriminate |].
  rewrite evaluateVariable_step.
  destruct (valueAt variable modeId) as [ | flag | x | s | properties | id ] eqn:Hvalue;
    try discriminate.
  destruct (getVariableById figma id) as [boundVariable | ] eqn:Hid.
  - intros (-> & hops & target & id' & Hlt & Hhops & Htarget & Hnone)%IH.
    split; [reflexivity |]. exists (S hops), target, id'.
    repeat split; [lia | by eapply hops_more | done | done].
  - intros [= <-]. split; [reflexivity |]. exists 0, variable, id.
    repeat split; [lia | constructor | done | done].
Qed.

Lemma evaluateVariable_hops figma modeId variable hops target :
  AliasHops figma modeId variable hops target →
  ∀ fuel,
    evaluateVariable figma (hops + fuel) variable modeId
    = evaluateVariable figma fuel target modeId.
Proof.
  induction 1 as [ | variable id boundVariable hops target Hvalue Hid _ IH];
    intros fuel; [reflexivity |].
  cbn [Nat.add]. by rewrite evaluateVariable_step, Hvalue, Hid.
Qed.

(** X5. [evaluateVariable] throws exactly when the chain of aliases reaches
    an alias whose id [getVariableById] does not resolve, and what is thrown
    is then a [TypeError]. *)
Theorem X5_evaluateVariable_throws_iff_dangling figma fuel variable modeId e :
  evaluateVariable figma fuel variable modeId = Some (Throw e)
  ↔ e = TypeError
    ∧ ∃ hops target id,
        hops < fuel ∧ AliasHops figma modeId variable hops target
        ∧ valueAt target modeId = VAlias id
        ∧ getVariableById figma id = None.
Proof.
  split; [apply evaluateVariable_throw_inv |].
  intros (-> & hops & target & id & Hlt & Hhops & Htarget & Hnone).
  replace fuel with (hops + S (fuel - S hops)) by lia.
  rewrite (evaluateVariable_hops _ _ _ _ _ Hhops).
  by rewrite evaluateVariable_step, Htarget, Hnone.
Qed.

(** X6. A mode that a variable has no value for is no error: the value is
    [undefined].  Aliases are followed at the same mode, so a chain that
    reaches a variable without a value at that mode evaluates to
    [undefined], and [getBoundedName] finds no binding there. *)
Theorem X6_missing_mode_is_undefined figma modeId variable hops target fuel :
  AliasHops figma modeId variable hops target →
  Variable_.valuesByMode target !! modeId = None →
  hops < fuel →
  evaluateVariable figma fuel variable modeId = Some (Ok VUndefined)
  ∧ getBoundedName figma target modeId = Ok None.
Proof.
  intros Hhops Hnone Hlt.
  assert (valueAt target modeId = VUndefined) as Htarget.
  { unfold valueAt. by rewrite Hnone. }
  split.
  - replace fuel with (hops + S (fuel - S hops)) by lia.
    rewrite (evaluateVariable_hops _ _ _ _ _ Hhops).
    by rewrite evaluateVariable_step, Htarget.
  - unfold getBoundedName. by rewrite Htarget.
Qed.

(** [Link] is an alias of [Foreign], which has no value in the mode
    [Light]. *)
Lemma X6_missing_mode_is_undefined_witness :
  evaluateVariable (Cases.document []) 2 Cases.Link "Light" = Some (Ok VUndefined)
  ∧ getBoundedName (Cases.document []) Cases.Foreign "Light" = Ok None.
Proof.
  apply (X6_missing_mode_is_undefined (Cases.document []) "Light"
           Cases.Link 1 Cases.Foreign 2).
  - eapply hops_more; [reflexivity | reflexivity | constructor].
  - reflexivity.
  - lia.
Defined.

(** X7. [getBoundedName] and [evaluateVariable] take the same first step:
    where the one finds no binding the other returns the stored value,
    where the one gives a name it is the name of the variable the other
    goes on with, and where the one throws so does the other. *)
Theorem X7_getBoundedName_is_the_first_hop figma fuel variable modeId :
  match getBoundedName figma variable modeId with
  | Ok None =>
      evaluateVariable figma (S fuel) variable modeId
      = Some (Ok (valueAt variable modeId))
  | Ok (Some name) =>
      ∃ boundVariable,
        Variable_.name boundVariable = name
        ∧ AliasHops figma modeId variable 1 boundVariable
        ∧ evaluateVariable figma (S fuel) variable modeId
          = evaluateVariable figma fuel boundVariable modeId
  | Throw e =>
      e = TypeError
      ∧ evaluateVariable figma (S fuel) variable modeId = Some (Throw TypeError)
  end.
Proof.
  rewrite evaluateVariable_step. unfold getBoundedName.
  rewrite isVariableAlias_typeIs.
  destruct (valueAt variable modeId) as [ | flag | x | s | properties | id ] eqn:Hvalue;
    try reflexivity.
  cbn. destruct (getVariableById figma id) as [boundVariable | ] eqn:Hid; cbn.
  - exists boundVariable. repeat split.
    eapply hops_more; [done | done | constructor].
  - done.
Qed.

(** ** Further properties of [getRGBA] and of the directory *)

(** X8. The message of the error that [getRGBA] throws tells the reason:
    the first one is thrown for the values that are not objects, the second
    one for the objects that lack one of the keys [r], [g], [b], [a]; an
    alias, which is an object without them, gets the second. *)
Theorem X8_getRGBA_error_tells_the_reason (value : VariableValue) :
  (getRGBA value = Throw (Error "Variable value is not an object")
   ↔ typeof value ≠ "object")
  ∧ (getRGBA value = Throw (Error "Variable value is not an RGBA object")
     ↔ typeof value = "object" ∧ isColorObject value = false)
  ∧ (isVariableAlias value = true →
     getRGBA value = Throw (Error "Variable value is not an RGBA object")).
Proof.
  destruct value as [ | flag | x | s | properties | id ].
  1-4: rewrite getRGBA_not_object by reflexivity;
       (split; [by split | split; [split; [discriminate | by intros [? _]] |]]);
       rewrite isVariableAlias_typeIs; discriminate.
  - unfold getRGBA. cbn [truthy typeof negb orb String.eqb].
    rewrite isColorObject_lookups.
    destruct (hasProperty "r" (VObject properties) && hasProperty "g" (VObject properties)
              && hasProperty "b" (VObject properties) && hasProperty "a" (VObject properties)).
    + split; [split; [discriminate | done] |].
      split; [split; [discriminate | by intros [_ ?]] |].
      rewrite isVariableAlias_typeIs. discriminate.
    + split; [split; [discriminate | done] |].
      split; [by split |].
      rewrite isVariableAlias_typeIs. discriminate.
  - split; [split; [discriminate | done] |]. split; [by split | done].
Qed.

Lemma named_app name (l1 l2 : list Variable_.t) :
  named name (l1 ++ l2)%list = (named name l1 ++ named name l2)%list.
Proof. apply List.filter_app. Qed.

Lemma foldl_insert_lookup (variables : list Variable_.t) (name : string) :
  foldl (fun m v => <[Variable_.name v := v]> m) (∅ : gmap string Variable_.t) variables
    !! name
  = last (named name variables).
Proof.
  induction variables as [ | v variables IH] using rev_ind; [reflexivity |].
  rewrite foldl_app, named_app. cbn [foldl named List.filter].
  destruct (String.eqb_spec (Variable_.name v) name) as [<- | Hne].
  - by rewrite lookup_insert_eq, last_snoc.
  - by rewrite lookup_insert_ne, app_nil_r.
Qed.

Lemma named_elem name (variables : list Variable_.t) v :
  v ∈ named name variables ↔ v ∈ variables ∧ Variable_.name v = name.
Proof.
  unfold named. rewrite !list_elem_of_In, List.filter_In.
  by destruct (String.eqb_spec (Variable_.name v) name); intuition.
Qed.

(** X9. The directory is keyed by name and a later variable replaces an
    earlier one of the same name: [getVariable] returns the last of the
    local variables that has the name, which is one of them and has that
    name, and throws the not-found error when none has it. *)
Theorem X9_getVariable_is_the_last_of_that_name (figma : Figma) (name : string) :
  getVariable figma name
  = match last (named name (getLocalVariablesAsync figma)) with
    | Some variable => Ok variable
    | None => Throw (NotFound name)
    end
  ∧ (∀ variable,
       getVariable figma name = Ok variable →
       variable ∈ getLocalVariablesAsync figma ∧ Variable_.name variable = name)
  ∧ (getVariable figma name = Throw (NotFound name)
     ↔ ∀ variable, variable ∈ getLocalVariablesAsync figma →
                   Variable_.name variable ≠ name).
Proof.
  unfold getVariable, variableMap. rewrite foldl_insert_lookup.
  destruct (last (named name (getLocalVariablesAsync figma))) as [found | ] eqn:Hlast.
  - assert (found ∈ getLocalVariablesAsync figma ∧ Variable_.name found = name) as Hfound.
    { apply named_elem. apply last_Some in Hlast as [l ->]. set_solver. }
    split; [reflexivity |]. split; [by intros variable [= <-] |].
    split; [discriminate |]. intros Hnone. destruct Hfound as [Hin Hname].
    by destruct (Hnone found Hin).
  - apply last_None in Hlast.
    split; [reflexivity |]. split; [discriminate |].
    split; [| done]. intros _ variable Hin Hname.
    assert (variable ∈ named name (getLocalVariablesAsync figma)) as Hel
      by by apply named_elem.
    rewrite Hlast in Hel. by apply elem_of_nil in Hel.
Qed.

Example getVariable_duplicate_name :
  getVariable (Cases.document []) "Shade" = Ok Cases.Shade'.
Proof. reflexivity. Qed.

(** ** The pattern: what it captures *)

Lemma append_empty (s : string) : EmptyString ++ s = s.
Proof. reflexivity. Qed.

Lemma append_String (c : ascii) (p s : string) : String c p ++ s = String c (p ++ s).
Proof. reflexivity. Qed.

Lemma append_append (p q s : string) : (p ++ q) ++ s = p ++ q ++ s.
Proof.
  induction p as [ | c p IH]; [reflexivity |].
  by rewrite !append_String, IH.
Qed.

Lemma prefix_append (p s : string) : String.prefix p (p ++ s) = true.
Proof.
  induction p as [ | c p IH]; [by destruct s |].
  rewrite append_String. cbn. by destruct (ascii_dec c c).
Qed.

Lemma drop_append (p s : string) : Str.drop (String.length p) (p ++ s) = s.
Proof.
  induction p as [ | c p IH]; [by destruct s |].
  by rewrite append_String.
Qed.

Lemma prefix_drop (p s : string) :
  String.prefix p s = true → s = p ++ Str.drop (String.length p) s.
Proof.
  revert s. induction p as [ | c p IH]; intros s; [by destruct s |].
  destruct s as [ | d s]; [discriminate |]. cbn.
  destruct (ascii_dec c d) as [<- | ]; [| discriminate].
  intros H. rewrite append_String. f_equal. by apply IH.
Qed.

Lemma literal_append {A : Type} (p : string) (k : string → option A) (s : string) :
  Pattern.literal p k (p ++ s) = k s.
Proof. unfold Pattern.literal. by rewrite prefix_append, drop_append. Qed.

Lemma literal_inv {A : Type} (p : string) (k : string → option A) (s : string) (x : A) :
  Pattern.literal p k s = Some x → ∃ rest, s = p ++ rest ∧ k rest = Some x.
Proof.
  unfold Pattern.literal. destruct (String.prefix p s) eqn:Hp; [| discriminate].
  intros Hk. exists (Str.drop (String.length p) s). split; [by apply prefix_drop | done].
Qed.

(** A group holds no line terminator and is followed by a text on which
    the rest of the pattern matches. *)
Lemma dotStar_inv {A : Type} (k : string → option A) (s group : string) (x : A) :
  Pattern.dotStar k s = Some (group, x) →
  singleLine group = true ∧ ∃ rest, s = group ++ rest ∧ k rest = Some x.
Proof.
  revert group. induction s as [ | c s IH]; intros group; cbn [Pattern.dotStar].
  - destruct (k EmptyString) as [y | ] eqn:Hk; [| discriminate].
    intros [= <- <-]. split; [reflexivity |]. by exists EmptyString.
  - assert (pair EmptyString <$> k (String c s) = Some (group, x) →
            singleLine group = true
            ∧ ∃ rest, String c s = group ++ rest ∧ k rest = Some x) as Hstop.
    { destruct (k (String c s)) as [y | ] eqn:Hk; [| discriminate].
      intros [= <- <-]. split; [reflexivity |]. by exists (String c s). }
    destruct (Str.isLineTerminator c) eqn:Hc; [exact Hstop |].
    destruct (Pattern.dotStar k s) as [[group' y] | ] eqn:Hrec; [| exact Hstop].
    intros [= <- <-]. destruct (IH group' eq_refl) as (Hline & rest & -> & Hk).
    split; [cbn; by rewrite Hc |]. by exists rest.
Qed.

(** A group takes the characters before the rest of the pattern, however
    many, when they hold no line terminator and the rest matches after
    them. *)
Lemma dotStar_takes {A : Type} (k : string → option A) (group rest : string) (x : A) :
  singleLine group = true →
  Pattern.dotStar k rest = Some (EmptyString, x) →
  Pattern.dotStar k (group ++ rest) = Some (group, x).
Proof.
  intros Hline Hrest. induction group as [ | c group IH]; [done |].
  cbn in Hline. apply andb_true_iff in Hline as [Hc Hline%IH].
  rewrite append_String. cbn [Pattern.dotStar].
  apply negb_true_iff in Hc. by rewrite Hc, Hline.
Qed.

Lemma dotStar_none {A : Type} (k : string → option A) (c : ascii) (s : string) :
  Pattern.dotStar k s = None → k (String c s) = None →
  Pattern.dotStar k (String c s) = None.
Proof.
  intros Hs Hk. cbn [Pattern.dotStar]. rewrite Hs, Hk.
  by destruct (Str.isLineTerminator c).
Qed.

(** The second group before the closing parenthesis that ends the name. *)
Lemma dotStar_closing (varName : string) :
  singleLine varName = true →
  Pattern.dotStar (Pattern.literal ")" (fun _ => Some tt)) (varName ++ ")")
  = Some (varName, tt).
Proof. intros Hline. by apply dotStar_takes. Qed.

(** The separator does not begin within a text that does not include it,
    also when a closing parenthesis follows the text. *)
Lemma separator_not_prefix (s : string) :
  String.prefix separator s = false → String.prefix separator (s ++ ")") = false.
Proof.
  change separator with (String "034" (String "," (String " " EmptyString))).
  destruct s as [ | a [ | b [ | c s]]];
    rewrite ?append_String, ?append_empty; cbn [String.prefix]; try done.
  repeat (destruct (ascii_dec _ _); [| done]).
  by destruct s.
Qed.

Lemma dotStar_no_separator {A : Type} (k : string → option A) (varName : string) :
  Str.includes separator varName = false →
  Pattern.dotStar (Pattern.literal separator k) (varName ++ ")") = None.
Proof.
  induction varName as [ | c varName IH]; [reflexivity |].
  cbn [Str.includes]. intros [Hp Hin]%orb_false_iff.
  rewrite append_String. apply dotStar_none; [by apply IH |].
  unfold Pattern.literal. rewrite <- append_String.
  by rewrite (separator_not_prefix (String c varName) Hp).
Qed.

Lemma matchHere_printfName (template varName : string) :
  singleLine template = true →
  singleLine varName = true →
  Str.includes separator varName = false →
  Pattern.matchHere (printfName template varName) = Some (template, varName).
Proof.
  intros Ht Hv Hsep. unfold Pattern.matchHere, printfName.
  change ("%printf(" ++ Str.dquote ++ template ++ separator ++ varName ++ ")")
    with (("%printf(" ++ Str.dquote) ++ template ++ separator ++ varName ++ ")").
  rewrite literal_append.
  rewrite (dotStar_takes _ template (separator ++ varName ++ ")") varName Ht); [done |].
  change (separator ++ varName ++ ")")
    with (String "034" (String "," (String " " (varName ++ ")")))).
  cbn [Pattern.dotStar Str.isLineTerminator Ascii.eqb Bool.eqb orb].
  rewrite !(dotStar_no_separator _ varName Hsep).
  change (String "034" (String "," (String " " (varName ++ ")"))))
    with (separator ++ varName ++ ")").
  rewrite literal_append, (dotStar_closing varName Hv). reflexivity.
Qed.

Lemma matchPrintf_printfName (template varName : string) :
  singleLine template = true →
  singleLine varName = true →
  Str.includes separator varName = false →
  Pattern.matchPrintf (printfName template varName) = Some (template, varName).
Proof.
  intros Ht Hv Hsep.
  pose proof (matchHere_printfName template varName Ht Hv Hsep) as Hhere.
  destruct (printfName template varName); cbn [Pattern.matchPrintf]; by rewrite Hhere.
Qed.

(** X10. A name written [%printf("template", varName)] is read back as that
    template and that variable name, when neither holds a line terminator
    and the variable name does not hold the separator (a double quote, a
    comma and a space); the template may hold it. *)
Theorem X10_matchPrintf_reads_back (template varName : string) :
  singleLine template = true →
  singleLine varName = true →
  Str.includes separator varName = false →
  Pattern.matchPrintf (printfName template varName) = Some (template, varName).
Proof. apply matchPrintf_printfName. Qed.

(** A template that holds the separator, and a variable name. *)
Lemma X10_matchPrintf_reads_back_witness :
  Pattern.matchPrintf (printfName ("a" ++ separator ++ "b") "Primary")
  = Some ("a" ++ separator ++ "b", "Primary").
Proof.
  exact (X10_matchPrintf_reads_back ("a" ++ separator ++ "b") "Primary"
           eq_refl eq_refl eq_refl).
Defined.

Lemma matchHere_inv (s group1 group2 : string) :
  Pattern.matchHere s = Some (group1, group2) →
  singleLine group1 = true ∧ singleLine group2 = true
  ∧ ∃ post, s = printfName group1 group2 ++ post.
Proof.
  unfold Pattern.matchHere.
  intros (s1 & -> & H1)%literal_inv.
  destruct (Pattern.dotStar _ s1) as [[g1 g2] | ] eqn:Hd1; [| discriminate].
  cbn in H1. injection H1 as -> ->.
  apply dotStar_inv in Hd1 as (Hline1 & rest1 & -> & (s2 & -> & H2)%literal_inv).
  destruct (Pattern.dotStar _ s2) as [[g2' []] | ] eqn:Hd2; [| discriminate].
  cbn in H2. injection H2 as ->.
  apply dotStar_inv in Hd2 as (Hline2 & rest2 & -> & (post & -> & _)%literal_inv).
  split; [done |]. split; [done |]. exists post.
  unfold printfName. by rewrite !append_append.
Qed.

(** X11. What the pattern captures stands in the name: the name holds, at
    some place, the text [%printf("group1", group2)], and neither group
    holds a line terminator. *)
Theorem X11_matchPrintf_captures_from_the_name (name group1 group2 : string) :
  Pattern.matchPrintf name = Some (group1, group2) →
  singleLine group1 = true ∧ singleLine group2 = true
  ∧ ∃ pre post, name = pre ++ printfName group1 group2 ++ post.
Proof.
  induction name as [ | c name IH]; cbn [Pattern.matchPrintf].
  - destruct (Pattern.matchHere EmptyString) as [groups | ] eqn:Hhere; [| discriminate].
    intros [= ->]. apply matchHere_inv in Hhere as (H1 & H2 & post & Heq).
    split; [done |]. split; [done |]. by exists EmptyString, post.
  - destruct (Pattern.matchHere (String c name)) as [groups | ] eqn:Hhere.
    + intros [= ->]. apply matchHere_inv in Hhere as (H1 & H2 & post & Heq).
      split; [done |]. split; [done |]. by exists EmptyString, post.
    + intros (H1 & H2 & pre & post & ->)%IH.
      split; [done |]. split; [done |]. by exists (String c pre), post.
Qed.

(** In a name with text around the printf form and a second closing
    parenthesis, the second group runs to the last one. *)
Lemma X11_matchPrintf_captures_from_the_name_witness :
  singleLine "a" = true ∧ singleLine "b) (c" = true
  ∧ ∃ pre post, "see " ++ printfName "a" "b) (c" ++ " end"
                = pre ++ printfName "a" "b) (c" ++ post.
Proof.
  exact (X11_matchPrintf_captures_from_the_name
           ("see " ++ printfName "a" "b) (c" ++ " end") "a" "b) (c" eq_refl).
Defined.

(** ** Further properties of the loop and of the resolver *)

Section Further.

Variable numberToString : float → string.
Variable color2k_rgba : float → float → float → float → string.
Variable color2k_toHex : string → result string.

(** The functions of [print.ts] with these library functions. *)
Local Abbreviation resolver :=
  (variableResolver numberToString color2k_rgba color2k_toHex).
Local Abbreviation template :=
  (renderTemplate numberToString color2k_rgba color2k_toHex).
Local Abbreviation resolved :=
  (resolveNode numberToString color2k_rgba color2k_toHex).
Local Abbreviation loop :=
  (renderNodes numberToString color2k_rgba color2k_toHex).
Local Abbreviation print :=
  (printVariablesFormatted numberToString color2k_rgba color2k_toHex).

Lemma matchesPattern_false (node : SceneNode.t) :
  matchesPattern node = false ↔ Pattern.matchPrintf (SceneNode.name node) = None.
Proof.
  unfold matchesPattern. by rewrite bool_decide_eq_false, <- eq_None_not_Some.
Qed.

Lemma resolved_no_match (figma : Figma) (node : SceneNode.t) :
  matchesPattern node = false → resolved figma node = Ok None.
Proof. intros H%matchesPattern_false. unfold resolveNode. by rewrite H. Qed.

(** What it takes for a node to be resolved to a text. *)
Lemma resolved_some_inv (figma : Figma) (node : SceneNode.t) (text : string) :
  resolved figma node = Ok (Some text) →
  ∃ group1 group2 variable collection,
    Pattern.matchPrintf (SceneNode.name node) = Some (group1, group2)
    ∧ getVariable figma (Str.trim group2) = Ok variable
    ∧ getVariableCollectionById figma (Variable_.variableCollectionId variable)
      = Some collection
    ∧ template figma variable
        (propertyKey (SceneNode.resolvedVariableModes node
                        !! VariableCollection.id collection))
        (Str.trim group1)
      = Ok text
    ∧ loadFontAsync figma (SceneNode.fontName node) = Ok tt.
Proof.
  unfold resolveNode.
  destruct (Pattern.matchPrintf (SceneNode.name node)) as [[group1 group2] | ] eqn:Hmatch;
    [| discriminate].
  cbn zeta.
  destruct (getVariable figma (Str.trim group2)) as [variable | ] eqn:Hget;
    [| discriminate].
  cbn [mbind result_bind].
  destruct (getVariableCollectionById figma (Variable_.variableCollectionId variable))
    as [collection | ] eqn:Hcollection; [| discriminate].
  cbn [nonNull mbind result_bind].
  destruct (template figma variable _ (Str.trim group1)) as [resultString | ] eqn:Htemplate;
    [| discriminate].
  cbn [mbind result_bind].
  destruct (loadFontAsync figma (SceneNode.fontName node)) as [[] | ] eqn:Hfont;
    [| discriminate].
  intros [= <-]. by exists group1, group2, variable, collection.
Qed.

Lemma resolved_match (figma : Figma) (node : SceneNode.t) :
  matchesPattern node = true → resolved figma node ≠ Ok None.
Proof.
  unfold matchesPattern, resolveNode. rewrite bool_decide_eq_true.
  intros [[group1 group2] ->]. cbn zeta.
  destruct (getVariable figma (Str.trim group2)) as [variable | ]; [| discriminate].
  cbn [mbind result_bind].
  destruct (getVariableCollectionById figma (Variable_.variableCollectionId variable))
    as [collection | ]; [| discriminate].
  cbn [nonNull mbind result_bind].
  destruct (template figma variable _ (Str.trim group1)) as [resultString | ];
    [| discriminate].
  cbn [mbind result_bind].
  by destruct (loadFontAsync figma (SceneNode.fontName node)) as [[] | ].
Qed.

Lemma loop_filter (figma : Figma) (nodes : list SceneNode.t) :
  ∀ effects,
    loop figma nodes effects = loop figma (List.filter matchesPattern nodes) effects.
Proof.
  induction nodes as [ | node nodes IH]; intros effects; [reflexivity |].
  cbn [List.filter]. destruct (matchesPattern node) eqn:Hmatch.
  - cbn [renderNodes]. destruct (resolved figma node) as [[text | ] | e]; by rewrite ?IH.
  - cbn [renderNodes]. by rewrite (resolved_no_match figma node Hmatch).
Qed.

(** X12. A node whose name has not the printf form is passed over: the loop
    does on a list of nodes what it does on those of them that have it. *)
Theorem X12_nodes_without_the_form_are_skipped
    (figma : Figma) (nodes : list SceneNode.t) (effects : Effects) :
  loop figma nodes effects = loop figma (List.filter matchesPattern nodes) effects.
Proof. apply loop_filter. Qed.

Lemma loop_written (figma : Figma) (nodes : list SceneNode.t) :
  ∀ effects node text,
    (node, text) ∈ characters (loop figma nodes effects).1 →
    (node, text) ∈ characters effects
    ∨ (node ∈ nodes ∧ resolved figma node = Ok (Some text)).
Proof.
  induction nodes as [ | first nodes IH]; intros effects node text; cbn [renderNodes].
  - by left.
  - destruct (resolved figma first) as [[resultString | ] | e] eqn:Hfirst.
    + intros [Hin | [Hin Hres]]%IH.
      * cbn in Hin. apply elem_of_app in Hin as [Hin | Hin]; [by left |].
        apply list_elem_of_singleton in Hin as [= -> ->]. right. split; [left | done].
      * right. split; [by right | done].
    + intros [Hin | [Hin Hres]]%IH; [by left |]. right. split; [by right | done].
    + by left.
Qed.

Lemma print_effects (figma : Figma) :
  characters (print figma).1 = characters (loop figma (textNodesToRender figma) noEffects).1
  ∧ printedCount (print figma).1
    = printedCount (loop figma (textNodesToRender figma) noEffects).1
  ∧ (print figma).2 = (loop figma (textNodesToRender figma) noEffects).2.
Proof.
  unfold printVariablesFormatted.
  by destruct (loop figma (textNodesToRender figma) noEffects) as [effects [[] | e]].
Qed.

Lemma textNodesToRender_elem (figma : Figma) (node : SceneNode.t) :
  node ∈ textNodesToRender figma →
  node ∈ currentPage figma ∧ SceneNode.type node = TEXT
  ∧ String.prefix "%printf" (SceneNode.name node) = true.
Proof.
  unfold textNodesToRender. rewrite !list_elem_of_In, !List.filter_In.
  intros [[Hin [Htext Hprefix]%andb_true_iff] _].
  unfold isText in Htext. by destruct (SceneNode.type node).
Qed.

(** X13. Nothing is written but to a text node of the current page whose
    name begins with [%printf] and has the printf form, whose variable is
    in the directory and whose font was loaded; and the text written is the
    template of the name, trimmed, as it stands. *)
Theorem X13_only_printf_text_nodes_are_written
    (figma : Figma) (node : SceneNode.t) (text : string) :
  (node, text) ∈ characters (print figma).1 →
  node ∈ currentPage figma
  ∧ SceneNode.type node = TEXT
  ∧ String.prefix "%printf" (SceneNode.name node) = true
  ∧ ∃ group1 group2 variable,
      Pattern.matchPrintf (SceneNode.name node) = Some (group1, group2)
      ∧ getVariable figma (Str.trim group2) = Ok variable
      ∧ loadFontAsync figma (SceneNode.fontName node) = Ok tt
      ∧ text = Str.trim group1.
Proof.
  destruct (print_effects figma) as (-> & _ & _).
  intros [Hin | [Hin Hres]]%loop_written; [by apply elem_of_nil in Hin |].
  destruct (textNodesToRender_elem figma node Hin) as (Hpage & Htext & Hprefix).
  apply resolved_some_inv in Hres
    as (group1 & group2 & variable & collection & Hmatch & Hget & _ & Htemplate & Hfont).
  apply renderTemplate_ok_unchanged in Htemplate as [-> _].
  repeat split; try done. by exists group1, group2, variable.
Qed.

Lemma print_count (figma : Figma) :
  printedCount (print figma).1 = List.length (characters (print figma).1).
Proof.
  destruct (loop_effects numberToString color2k_rgba color2k_toHex figma
              (textNodesToRender figma) noEffects)
    as (written & Hchars & _ & Hcount & _).
  destruct (print_effects figma) as (-> & -> & _). by rewrite Hchars, Hcount.
Qed.

(** X14. The counter is the number of texts written; the notification is
    shown exactly when the run ends without an exception, and names that
    number. *)
Theorem X14_count_and_notification (figma : Figma) :
  printedCount (print figma).1 = List.length (characters (print figma).1)
  ∧ match (print figma).2 with
    | Ok _ =>
        notified (print figma).1
        = Some ("Printed " ++ pretty (List.length (characters (print figma).1))
                ++ " variables")
    | Throw _ => notified (print figma).1 = None
    end.
Proof.
  split; [apply print_count |].
  destruct (loop_effects numberToString color2k_rgba color2k_toHex figma
              (textNodesToRender figma) noEffects)
    as (written & Hchars & _ & Hcount & Hnote).
  unfold printVariablesFormatted.
  destruct (loop figma (textNodesToRender figma) noEffects) as [effects [[] | e]];
    cbn in *; [| done]. by rewrite Hchars, Hcount.
Qed.

(** X15. The first exception, whatever raises it, ends the run: when the
    nodes before a node are rendered and that node throws, the run throws
    the same, keeps what was written for the nodes before it and shows no
    notification. *)
Theorem X15_first_exception_ends_the_run
    (figma : Figma) (pre post : list SceneNode.t) (node : SceneNode.t)
    (effects : Effects) (e : JSError) :
  textNodesToRender figma = (pre ++ node :: post)%list →
  loop figma pre noEffects = (effects, Ok tt) →
  resolved figma node = Throw e →
  print figma = (effects, Throw e) ∧ notified effects = None.
Proof.
  intros Hnodes Hpre Hnode.
  destruct (loop_effects numberToString color2k_rgba color2k_toHex figma pre noEffects)
    as (written & _ & _ & _ & Hnote).
  rewrite Hpre in Hnote. split; [| exact Hnote].
  unfold printVariablesFormatted.
  rewrite Hnodes, loop_app, Hpre. cbn [renderNodes]. by rewrite Hnode.
Qed.

Lemma loop_ok (figma : Figma) (nodes : list SceneNode.t) :
  ∀ effects effects',
    loop figma nodes effects = (effects', Ok tt) →
    ∃ written,
      characters effects' = (characters effects ++ written)%list
      ∧ written.*1 = List.filter matchesPattern nodes.
Proof.
  induction nodes as [ | node nodes IH]; intros effects effects'; cbn [renderNodes].
  - intros [= <-]. exists []. by rewrite app_nil_r.
  - cbn [List.filter]. destruct (resolved figma node) as [[text | ] | e] eqn:Hnode.
    + destruct (matchesPattern node) eqn:Hmatch.
      2: { rewrite (resolved_no_match figma node Hmatch) in Hnode. discriminate. }
      intros (written & Hchars & Hwritten)%IH. cbn in Hchars.
      exists ((node, text) :: written). rewrite Hchars, <- app_assoc. cbn.
      by rewrite Hwritten.
    + destruct (matchesPattern node) eqn:Hmatch.
      1: { by destruct (resolved_match figma node Hmatch). }
      apply IH.
    + discriminate.
Qed.

(** X16. When the run ends without an exception, the nodes written are the
    text nodes to render whose name has the printf form, each once and in
    the order of the page. *)
Theorem X16_a_run_without_exception_writes_every_printf_node
    (figma : Figma) (effects : Effects) :
  print figma = (effects, Ok tt) →
  (characters effects).*1 = List.filter matchesPattern (textNodesToRender figma)
  ∧ printedCount effects
    = List.length (List.filter matchesPattern (textNodesToRender figma)).
Proof.
  intros Hprint.
  pose proof (print_count figma) as Hcount.
  destruct (print_effects figma) as (Hchars & _ & Hres).
  rewrite Hprint in Hchars, Hres, Hcount. cbn in Hchars, Hres, Hcount.
  destruct (loop figma (textNodesToRender figma) noEffects) as [effects' [[] | e]] eqn:Hloop;
    [| discriminate].
  apply loop_ok in Hloop as (written & Hwritten & Hfst). cbn in Hchars, Hwritten.
  rewrite Hcount, Hchars, Hwritten, <- Hfst. by rewrite length_fmap.
Qed.

(** X17. A page on which no text node to render has the printf form is no
    error: nothing is written and the notification counts zero. *)
Theorem X17_no_printf_node_prints_zero (figma : Figma) :
  List.filter matchesPattern (textNodesToRender figma) = [] →
  print figma
  = ({| characters := []; printedCount := 0;
        notified := Some "Printed 0 variables" |}, Ok tt).
Proof.
  intros Hnone. unfold printVariablesFormatted.
  rewrite loop_filter, Hnone. reflexivity.
Qed.

(** X18. The resolver converts the value to a color before it looks at the
    resolver's name: for a name other than [v] and [bound], a value that is
    not a color throws the error of [getRGBA] whatever the name, and the
    error for a name that is not known is reached with a color only. *)
Theorem X18_unknown_resolver_is_told_after_the_color
    (figma : Figma) (variable : Variable_.t) (modeId name : string)
    (variableValue : VariableValue) :
  name ≠ "v" → name ≠ "bound" →
  match getRGBA variableValue with
  | Throw e => resolver figma variable modeId name variableValue = Throw e
  | Ok _ =>
      name ∉ ["rgba"; "hex"; "r"; "g"; "b"; "a"] →
      resolver figma variable modeId name variableValue
      = Throw (Error ("Variable resolver not found:" ++ name))
  end.
Proof.
  intros Hv%String.eqb_neq Hbound%String.eqb_neq.
  unfold variableResolver. rewrite Hv, Hbound.
  destruct (getRGBA variableValue) as [RGBA | e]; [| reflexivity].
  intros Hname. cbn [mbind result_bind].
  assert (∀ known, known ∈ ["rgba"; "hex"; "r"; "g"; "b"; "a"] →
                   String.eqb name known = false) as Hother.
  { intros known Hknown. apply String.eqb_neq. by intros ->. }
  rewrite !Hother by (repeat constructor). reflexivity.
Qed.

(** X19. Every resolver but [bound] depends on its name and on the value
    only: the document, the variable and the mode play no part. *)
Theorem X19_only_bound_looks_at_the_variable
    (figma figma' : Figma) (variable variable' : Variable_.t)
    (modeId modeId' name : string) (variableValue : VariableValue) :
  name ≠ "bound" →
  resolver figma variable modeId name variableValue
  = resolver figma' variable' modeId' name variableValue.
Proof.
  intros Hbound%String.eqb_neq. unfold variableResolver.
  by rewrite Hbound.
Qed.

(** X20. As the filter and the reduction stand, a template is rendered
    exactly when it holds none of [%v], [%h], [%r], [%b], [%g], [%a], and
    is then returned as it is; a template that holds [%v] throws a
    [TypeError], and any other one the not-an-object error of [getRGBA]. *)
Theorem X20_renderTemplate_outcomes
    (figma : Figma) (variable : Variable_.t) (modeId fstring : string) :
  template figma variable modeId fstring
  = if Str.includes "%v" fstring then Throw TypeError
    else if Str.includes "%h" fstring || Str.includes "%r" fstring
            || Str.includes "%b" fstring || Str.includes "%g" fstring
            || Str.includes "%a" fstring
    then Throw (Error "Variable value is not an object")
    else Ok fstring.
Proof.
  generalize (renderTemplate_cases numberToString color2k_rgba color2k_toHex
                figma variable modeId fstring).
  unfold usedResolvers, VARIABLE_RESOLVERS. cbn [List.filter].
  change ("%" ++ keyOf "v") with "%v". change ("%" ++ keyOf "hex") with "%h".
  change ("%" ++ keyOf "rgba") with "%r". change ("%" ++ keyOf "bound") with "%b".
  change ("%" ++ keyOf "r") with "%r". change ("%" ++ keyOf "g") with "%g".
  change ("%" ++ keyOf "b") with "%b". change ("%" ++ keyOf "a") with "%a".
  destruct (Str.includes "%v" fstring); [intros Hc; exact Hc |].
  destruct (Str.includes "%h" fstring); [intros Hc; exact Hc |].
  destruct (Str.includes "%r" fstring); [intros Hc; exact Hc |].
  destruct (Str.includes "%b" fstring); [intros Hc; exact Hc |].
  destruct (Str.includes "%g" fstring); [intros Hc; exact Hc |].
  destruct (Str.includes "%a" fstring); intros Hc; exact Hc.
Qed.

(** X21. White space around the template and around the variable name is
    dropped before they are used: two nodes of the same font and modes
    whose names differ in it only are resolved alike. *)
Theorem X21_surrounding_white_space_is_dropped
    (figma : Figma) (id id' fontName : string) (modes : gmap string string)
    (fstring fstring' varName varName' : string) :
  singleLine fstring = true → singleLine varName = true →
  Str.includes separator varName = false →
  singleLine fstring' = true → singleLine varName' = true →
  Str.includes separator varName' = false →
  Str.trim fstring = Str.trim fstring' →
  Str.trim varName = Str.trim varName' →
  resolved figma (SceneNode.mk id TEXT (printfName fstring varName) fontName modes)
  = resolved figma (SceneNode.mk id' TEXT (printfName fstring' varName') fontName modes).
Proof.
  intros Ht Hv Hsep Ht' Hv' Hsep' Htrim Htrim'. unfold resolveNode.
  cbn [SceneNode.name SceneNode.fontName SceneNode.resolvedVariableModes].
  rewrite (matchPrintf_printfName _ _ Ht Hv Hsep),
    (matchPrintf_printfName _ _ Ht' Hv' Hsep').
  cbn zeta. by rewrite Htrim, Htrim'.
Qed.

End Further.

(** ** The further properties on example documents *)

(** [title] is written, with its template. *)
Lemma X13_only_printf_text_nodes_are_written_witness :
  Pages.title ∈ currentPage (Cases.document [Pages.title; Pages.note])
  ∧ SceneNode.type Pages.title = TEXT
  ∧ String.prefix "%printf" (SceneNode.name Pages.title) = true
  ∧ ∃ group1 group2 variable,
      Pattern.matchPrintf (SceneNode.name Pages.title) = Some (group1, group2)
      ∧ getVariable (Cases.document [Pages.title; Pages.note]) (Str.trim group2)
        = Ok variable
      ∧ loadFontAsync (Cases.document [Pages.title; Pages.note])
          (SceneNode.fontName Pages.title) = Ok tt
      ∧ "Title" = Str.trim group1.
Proof.
  apply (X13_only_printf_text_nodes_are_written
           Examples.numberText Examples.rgbaText Examples.hexText
           (Cases.document [Pages.title; Pages.note]) Pages.title "Title").
  vm_compute. left.
Defined.

(** The font of [subtitle] cannot be loaded: the run ends there, with
    [title] written and [footer] not. *)
Lemma X15_first_exception_ends_the_run_witness :
  printVariablesFormatted Examples.numberText Examples.rgbaText Examples.hexText
    (Cases.document [Pages.title; Pages.subtitle; Pages.footer])
  = ({| characters := [(Pages.title, "Title")]; printedCount := 1; notified := None |},
     Throw (Error "The font could not be loaded"))
  ∧ notified {| characters := [(Pages.title, "Title")]; printedCount := 1;
                notified := None |} = None.
Proof.
  exact (X15_first_exception_ends_the_run
           Examples.numberText Examples.rgbaText Examples.hexText
           (Cases.document [Pages.title; Pages.subtitle; Pages.footer])
           [Pages.title] [Pages.footer] Pages.subtitle
           {| characters := [(Pages.title, "Title")]; printedCount := 1;
              notified := None |}
           (Error "The font could not be loaded") eq_refl eq_refl eq_refl).
Defined.

(** [title] and [footer] are written, in that order, and [note], whose name
    has not the printf form, is not. *)
Lemma X16_a_run_without_exception_writes_every_printf_node_witness :
  [Pages.title; Pages.footer]
  = List.filter matchesPattern
      (textNodesToRender (Cases.document [Pages.title; Pages.note; Pages.footer]))
  ∧ 2 = List.length
          (List.filter matchesPattern
             (textNodesToRender (Cases.document [Pages.title; Pages.note; Pages.footer]))).
Proof.
  exact (X16_a_run_without_exception_writes_every_printf_node
           Examples.numberText Examples.rgbaText Examples.hexText
           (Cases.document [Pages.title; Pages.note; Pages.footer])
           {| characters := [(Pages.title, "Title"); (Pages.footer, "Footer")];
              printedCount := 2;
              notified := Some "Printed 2 variables" |}
           eq_refl).
Defined.

(** A page with [note] alone. *)
Lemma X17_no_printf_node_prints_zero_witness :
  printVariablesFormatted Examples.numberText Examples.rgbaText Examples.hexText
    (Cases.document [Pages.note])
  = ({| characters := []; printedCount := 0;
        notified := Some "Printed 0 variables" |}, Ok tt).
Proof.
  exact (X17_no_printf_node_prints_zero
           Examples.numberText Examples.rgbaText Examples.hexText
           (Cases.document [Pages.note]) eq_refl).
Defined.

(** A text under a resolver name that is not known: the error is that of
    the color conversion. *)
Lemma X18_unknown_resolver_is_told_after_the_color_witness :
  variableResolver Examples.numberText Examples.rgbaText Examples.hexText
    (Cases.document []) Cases.Shade "Light" "hsl" (VString "red")
  = Throw (Error "Variable value is not an object").
Proof.
  apply (X18_unknown_resolver_is_told_after_the_color
           Examples.numberText Examples.rgbaText Examples.hexText
           (Cases.document []) Cases.Shade "Light" "hsl" (VString "red"));
    discriminate.
Defined.

(** The resolver [r] on a color, for two variables of two documents. *)
Lemma X19_only_bound_looks_at_the_variable_witness :
  variableResolver Examples.numberText Examples.rgbaText Examples.hexText
    (Cases.document []) Cases.Shade "Light" "r" (Examples.color 1 0 0 1)
  = variableResolver Examples.numberText Examples.rgbaText Examples.hexText
      (Examples.document []) Examples.Button "Dark" "r" (Examples.color 1 0 0 1).
Proof.
  apply (X19_only_bound_looks_at_the_variable
           Examples.numberText Examples.rgbaText Examples.hexText).
  discriminate.
Defined.

(** The name of [footer], with spaces around the template and the variable
    name, is resolved as the name without them. *)
Lemma X21_surrounding_white_space_is_dropped_witness :
  resolveNode Examples.numberText Examples.rgbaText Examples.hexText
    (Cases.document [])
    (SceneNode.mk "4:4" TEXT (printfName " Footer " " Shade ") "Inter Regular" ∅)
  = resolveNode Examples.numberText Examples.rgbaText Examples.hexText
      (Cases.document [])
      (SceneNode.mk "4:5" TEXT (printfName "Footer" "Shade") "Inter Regular" ∅).
Proof.
  exact (X21_surrounding_white_space_is_dropped
           Examples.numberText Examples.rgbaText Examples.hexText
           (Cases.document []) "4:4" "4:5" "Inter Regular" ∅
           " Footer " "Footer" " Shade " "Shade"
           eq_refl eq_refl eq_refl eq_refl eq_refl eq_refl eq_refl eq_refl).
Defined.
